(** * Video analyzer notebook (video_analyzer_phi3.ipynb): frame sampling,
      frame captioning, audio transcription and report assembly.

    The notebook is a sequence of code cells run top to bottom; a cell that
    raises stops the run.  The cells are embedded one by one:

    - Step 2 (frame extraction)            : [Sampler]
    - Step 3 (audio extraction, Whisper)   : [Audio]
    - Step 4 ([analyze_image_with_phi])    : [Captioner]
    - Step 5 (frame analysis loop)         : [Driver]
    - Step 6 (report generation)           : [Report]
    - the run of all cells                 : [Notebook]

    The cells that install packages are shell commands and raise nothing;
    Step 1 (upload) leaves [video_path] and Step 7 (download) comes after
    the report: they are not embedded.

    Python values are modelled as the interpreter has them: [str] is a
    sequence of code points, [float] is an IEEE-754 binary64 number
    (Stdlib's [spec_float]), [int] is unbounded ([Z]), and a computation
    either returns or raises ([outcome]).  The [print] calls of the cells
    are diagnostic only and are left out. *)

From Stdlib Require Import ZArith QArith Qround List Lia Bool String Ascii DecimalString.
From Stdlib Require Import DecimalN Lqa.
From Stdlib Require Import SpecFloat.
From stdpp Require Import gmap sorting list.

Local Open Scope Z_scope.

(* ===================================================================== *)
(** * Python values *)
(* ===================================================================== *)

Module Py.

(** A Python [str]: a sequence of Unicode code points. *)
Abbreviation str := (list N).

(** A string literal of the source (ASCII text). *)
Definition lit (s : string) : str :=
  map N_of_ascii (list_ascii_of_string s).

(** An exception object: its class name and [str(e)].  The objects are the
    instances of [Exception], the class the handlers of the notebook
    catch; the interrupts of the interpreter are not modelled. *)
Record exn := Exn { exn_class : str; exn_str : str }.

Definition ValueError (msg : string) : exn := Exn (lit "ValueError") (lit msg).
Definition OverflowError (msg : string) : exn := Exn (lit "OverflowError") (lit msg).
Definition RuntimeError (msg : string) : exn := Exn (lit "RuntimeError") (lit msg).
Definition FileNotFoundError (msg : string) : exn :=
  Exn (lit "FileNotFoundError") (lit msg).
Definition AttributeError (msg : string) : exn :=
  Exn (lit "AttributeError") (lit msg).

(** The outcome of evaluating an expression or running a statement. *)
Inductive outcome (A : Type) : Type :=
| Returns (a : A)
| Raises (e : exn).
Arguments Returns {A} a.
Arguments Raises {A} e.

Definition bind {A B} (m : outcome A) (k : A -> outcome B) : outcome B :=
  match m with
  | Returns a => k a
  | Raises e => Raises e
  end.

(** ** binary64 floats *)

Definition prec : Z := 53.
Definition emax : Z := 1024.
Abbreviation float := spec_float.

Definition float_valid (x : float) : bool := valid_binary prec emax x.
Definition float_of_int (z : Z) : float := binary_normalize prec emax z 0 false.
Definition float_mul (x y : float) : float := SFmul prec emax x y.
Definition float_leb (x y : float) : bool := SFleb x y.
Definition float_ltb (x y : float) : bool := SFltb x y.

(** The float [m * 2^e], rounded to binary64 ([Z0] gives [+0.0]). *)
Definition float_of_scaled (m e : Z) : float := binary_normalize prec emax m e false.

(** A number is an [int] or a [float]; the variable [fps] of Step 2 holds
    a [float] read from the capture or the [int] literal 30. *)
Inductive num :=
| PyInt (z : Z)
| PyFloat (x : float).

(** [x <= 0] with the [int] literal 0: exact comparison; false on NaN. *)
Definition num_le_zero (x : num) : bool :=
  match x with
  | PyInt z => z <=? 0
  | PyFloat f => float_leb f (S754_zero false)
  end.

(** [x * k] for an [int] literal [k]: [int * int] is exact; for
    [float * int] the [int] is first converted to [float]. *)
Definition num_mul_int (x : num) (k : Z) : num :=
  match x with
  | PyInt z => PyInt (z * k)
  | PyFloat f => PyFloat (float_mul f (float_of_int k))
  end.

(** [int(x)] on a float: truncation toward zero; NaN and the infinities
    raise. *)
Definition float_trunc (x : float) : outcome Z :=
  match x with
  | S754_zero _ => Returns 0
  | S754_nan => Raises (ValueError "cannot convert float NaN to integer")
  | S754_infinity _ =>
      Raises (OverflowError "cannot convert float infinity to integer")
  | S754_finite s m e =>
      let a := if 0 <=? e then Z.pos m * 2 ^ e else Z.pos m / 2 ^ (- e) in
      Returns (if s then - a else a)
  end.

(** The rational number a finite float stands for. *)
Definition float_to_Q (x : float) : option Q :=
  match x with
  | S754_zero _ => Some (inject_Z 0)
  | S754_finite s m e =>
      let sm := if s then Z.neg m else Z.pos m in
      Some (if 0 <=? e then inject_Z (sm * 2 ^ e) else sm # Z.to_pos (2 ^ (- e)))
  | _ => None
  end.

Definition int_of (x : num) : outcome Z :=
  match x with
  | PyInt z => Returns z
  | PyFloat f => float_trunc f
  end.

(** ** Strings *)

Definition nl : str := [10%N].

(** [str(n)] for a natural number: its decimal digits. *)
Definition digits (n : N) : str :=
  lit (DecimalString.NilZero.string_of_uint (N.to_uint n)).

(** [str(z)], also the format spec [d]. *)
Definition format_d (z : Z) : str :=
  if z <? 0 then lit "-" ++ digits (Z.abs_N z) else digits (Z.abs_N z).

(** The format spec [0wd]: the sign first, then zeros up to width [w]. *)
Definition format_0d (w : nat) (z : Z) : str :=
  let sign := if z <? 0 then lit "-" else [] in
  let ds := digits (Z.abs_N z) in
  sign ++ replicate (w - length sign - length ds)%nat 48%N ++ ds.

(** [s[:n]] for [n >= 0]. *)
Definition slice_to (n : nat) (s : str) : str := take n s.

(** Comparison of strings: lexicographic on code points. *)
Fixpoint str_compare (s t : str) : comparison :=
  match s, t with
  | [], [] => Eq
  | [], _ :: _ => Lt
  | _ :: _, [] => Gt
  | a :: s', b :: t' =>
      match N.compare a b with
      | Eq => str_compare s' t'
      | c => c
      end
  end.

Definition str_leb (s t : str) : bool :=
  match str_compare s t with Gt => false | _ => true end.
Definition str_ltb (s t : str) : bool :=
  match str_compare s t with Lt => true | _ => false end.
Definition str_le (s t : str) : Prop := str_leb s t = true.

#[export] Instance str_le_dec s t : Decision (str_le s t).
Proof. unfold str_le. apply _. Defined.

Definition str_lt (s t : str) : Prop := str_ltb s t = true.

(** Each string of the list is below the next one. *)
Fixpoint increasing (l : list str) : bool :=
  match l with
  | s :: (t :: _) as rest => str_ltb s t && increasing rest
  | _ => true
  end.

(** [sorted(l)] on a list of strings. *)
Definition sorted (l : list str) : list str := merge_sort str_le l.

(** [s.startswith(p)] and the rest of [s] after the prefix. *)
Fixpoint strip_prefix (p s : str) : option str :=
  match p, s with
  | [], _ => Some s
  | _ :: _, [] => None
  | a :: p', b :: s' => if N.eqb a b then strip_prefix p' s' else None
  end.

Definition startswith (p s : str) : bool :=
  match strip_prefix p s with Some _ => true | None => false end.
Definition endswith (p s : str) : bool := startswith (rev p) (rev s).

(** [s.split(sep)] for a non-empty [sep]: scan left to right, cutting at
    each occurrence that does not overlap the previous one.  [skip] counts
    the characters of a matched separator still to be passed over, [cur]
    is the current piece, reversed. *)
Fixpoint split_go (sep s : str) (skip : nat) (cur : str) : list str :=
  match s with
  | [] => [rev cur]
  | c :: s' =>
      match skip with
      | S k => split_go sep s' k cur
      | O =>
          if startswith sep s
          then rev cur :: split_go sep s' (length sep - 1) []
          else split_go sep s' 0 (c :: cur)
      end
  end.

Definition split (sep s : str) : list str := split_go sep s 0 [].

(** White space in the sense of [str.isspace]. *)
Definition isspace (c : N) : bool :=
  ((9 <=? c) && (c <=? 13) || (28 <=? c) && (c <=? 32)
   || (c =? 133) || (c =? 160) || (c =? 5760)
   || (8192 <=? c) && (c <=? 8202) || (c =? 8232) || (c =? 8233)
   || (c =? 8239) || (c =? 8287) || (c =? 12288))%N.

Fixpoint lstrip (s : str) : str :=
  match s with
  | c :: s' => if isspace c then lstrip s' else s
  | [] => []
  end.

(** [s.strip()] *)
Definition strip (s : str) : str := rev (lstrip (rev (lstrip s))).

(** ** [range(0, stop, step)] *)

(** The elements [cur, cur + step, ...] below [stop] (above it when
    [down]), at most [fuel] of them. *)
Fixpoint range_from (down : bool) (fuel : nat) (cur stop step : Z) : list Z :=
  match fuel with
  | O => []
  | S fuel' =>
      if (if down then stop <? cur else cur <? stop)
      then cur :: range_from down fuel' (cur + step) stop step
      else []
  end.

(** [list(range(0, stop, step))]; a zero step raises.  The fuel
    [|stop|] is enough for every non-zero step. *)
Definition range (stop step : Z) : outcome (list Z) :=
  if step =? 0 then Raises (ValueError "range() arg 3 must not be zero")
  else Returns (range_from (step <? 0) (Z.abs_nat stop) 0 stop step).

(** ** Effects of a cell *)

(** Calls to the external collaborators, in the order they are made. *)
Inductive event :=
| EvWriteAudio                  (* video.audio.write_audiofile(...) *)
| EvWhisperLoad                 (* whisper.load_model("base") *)
| EvTranscribe                  (* model_whisper.transcribe(...) *)
| EvPhiLoad                     (* AutoModelForCausalLM.from_pretrained(...) *)
| EvCaption (image_path : str)  (* processor(...), model.generate(...) *)
| EvWriteReport (text : str).   (* f.write(report) *)

(** The calls that invoke the transcriber, and the one that writes the
    report. *)
Definition calls_transcriber (ev : event) : bool :=
  match ev with
  | EvWhisperLoad | EvTranscribe => true
  | _ => false
  end.

Definition writes_report (ev : event) : bool :=
  match ev with
  | EvWriteReport _ => true
  | _ => false
  end.

(** A cell (or a statement of one) runs against the trace of the calls
    made so far, and returns or raises. *)
Definition M (A : Type) : Type := list event -> outcome A * list event.

Definition ret {A} (a : A) : M A := fun t => (Returns a, t).
Definition raise {A} (e : exn) : M A := fun t => (Raises e, t).
Definition lift {A} (o : outcome A) : M A := fun t => (o, t).
Definition emit (ev : event) : M unit := fun t => (Returns tt, t ++ [ev]).

Definition bindM {A B} (m : M A) (k : A -> M B) : M B :=
  fun t =>
    match m t with
    | (Returns a, t') => k a t'
    | (Raises e, t') => (Raises e, t')
    end.

(** [try: m  except Exception as e: h e] *)
Definition try_except {A} (m : M A) (h : exn -> M A) : M A :=
  fun t =>
    match m t with
    | (Returns a, t') => (Returns a, t')
    | (Raises e, t') => h e t'
    end.

End Py.

Import Py.

Notation "'let*' x := m 'in' k" := (bind m (fun x => k))
  (at level 10, x name, m at level 100, k at level 200).
Notation "'do*' x := m 'in' k" := (bindM m (fun x => k))
  (at level 10, x name, m at level 100, k at level 200).
Notation "'do*' ' p := m 'in' k" := (bindM m (fun x => let 'p := x in k))
  (at level 10, p strict pattern, m at level 100, k at level 200).

(* ===================================================================== *)
(** * Step 2: frame extraction *)
(* ===================================================================== *)

(** A decoded frame: its pixel payload.  The JPEG file written for a
    frame is identified with the frame it holds. *)
Definition Image : Type := list N.

(** The order in which the OS lists a directory: some permutation. *)
Record dir_order := DirOrder {
  order_of :> list str -> list str;
  order_perm : forall l, order_of l ≡ₚ l
}.

(** [output_folder = 'frames']; a folder maps file names to contents. *)
Definition output_folder : str := lit "frames".

(** [os.listdir(d)] *)
Definition listdir (order : dir_order) (d : gmap str Image) : list str :=
  order (elements (dom d)).

(** [os.path.join(output_folder, f)], also [f"{output_folder}/..."] *)
Definition in_output_folder (f : str) : str := output_folder ++ lit "/" ++ f.

Module Sampler.

(** The opened capture [vidcap = cv2.VideoCapture(video_path)].
    [read_at n] is [vidcap.set(CAP_PROP_POS_FRAMES, n)] followed by
    [vidcap.read()]: [None] when [success] is false. *)
Record VideoCapture := {
  isOpened : bool;
  CAP_PROP_FPS : float;
  CAP_PROP_FRAME_COUNT : float;
  read_at : Z -> option Image
}.

(** [for f in os.listdir(output_folder): os.remove(os.path.join(output_folder, f))] *)
Definition clear_frames (order : dir_order) (d : gmap str Image) : gmap str Image :=
  fold_left (fun d f => delete f d) (listdir order d) d.

(** [fps = vidcap.get(CAP_PROP_FPS); if fps <= 0: fps = 30] *)
Definition fps_or_fallback (cap_fps : float) : num :=
  if num_le_zero (PyFloat cap_fps) then PyInt 30 else PyFloat cap_fps.

(** [frame_interval = int(fps * 2)] *)
Definition frame_interval (cap_fps : float) : outcome Z :=
  int_of (num_mul_int (fps_or_fallback cap_fps) 2).

(** [f"frame_{saved_count:04d}.jpg"] *)
Definition frame_name (saved_count : Z) : str :=
  lit "frame_" ++ format_0d 4 saved_count ++ lit ".jpg".

(** The variables of the loop, and the [cv2.imwrite] calls made. *)
Record loop_state := LoopState {
  saved_count : Z;
  frames : gmap str Image;
  imwrite_log : list (str * Image)
}.

(** The body of [for frame_num in range(0, total_frames, frame_interval)];
    [cv2.imwrite] writes the file it is asked to write. *)
Definition loop_body (cap : VideoCapture) (st : loop_state) (frame_num : Z)
  : loop_state :=
  match read_at cap frame_num with
  | Some image =>
      let path := in_output_folder (frame_name (saved_count st)) in
      {| saved_count := saved_count st + 1;
         frames := <[frame_name (saved_count st) := image]> (frames st);
         imwrite_log := imwrite_log st ++ [(path, image)] |}
  | None => st
  end.

Record result := Result {
  total_frames : Z;
  final : loop_state
}.

(** The cell of Step 2, run on the capture and on what the folder
    [frames] held before. *)
Definition step2 (order : dir_order) (stale : gmap str Image) (cap : VideoCapture)
  : outcome result :=
  let cleared := clear_frames order stale in
  if negb (isOpened cap) then Raises (RuntimeError "Error opening video file")
  else
    let* frame_interval := frame_interval (CAP_PROP_FPS cap) in
    let* total_frames := int_of (PyFloat (CAP_PROP_FRAME_COUNT cap)) in
    let* frame_nums := range total_frames frame_interval in
    Returns (Result total_frames
               (fold_left (loop_body cap) frame_nums (LoopState 0 cleared []))).

(** The name of the frame saved at index [k], and the names of the first
    10000 frames: those with four digits. *)
Definition name_of (k : nat) : str := frame_name (Z.of_nat k).

Fixpoint count_from (n : nat) (k : Z) : list Z :=
  match n with
  | O => []
  | S n' => k :: count_from n' (k + 1)
  end.

Definition four_digit_names : list str :=
  map frame_name (count_from (Z.to_nat 10000) 0).

(** What the loop leaves, stated on the decoded images: the images the
    capture decodes at the frame numbers, in order, ... *)
Fixpoint decoded (cap : VideoCapture) (nums : list Z) : list Image :=
  match nums with
  | [] => []
  | n :: rest =>
      match read_at cap n with
      | Some image => image :: decoded cap rest
      | None => decoded cap rest
      end
  end.

(** ... the [cv2.imwrite] calls for them from index [n] on, ... *)
Fixpoint log_from (n : Z) (imgs : list Image) : list (str * Image) :=
  match imgs with
  | [] => []
  | image :: rest => (in_output_folder (frame_name n), image) :: log_from (n + 1) rest
  end.

(** ... and the folder after these calls. *)
Fixpoint write_from (d : gmap str Image) (n : Z) (imgs : list Image)
  : gmap str Image :=
  match imgs with
  | [] => d
  | image :: rest => write_from (<[frame_name n := image]> d) (n + 1) rest
  end.

End Sampler.

(* ===================================================================== *)
(** * The external collaborators of Steps 3 to 6 *)
(* ===================================================================== *)

(** [VideoFileClip(video_path)]: [audio] is [None] when the container has
    no audio stream. *)
Record VideoFileClip := {
  audio : option (list Z);
  duration : float
}.

Record World := {
  video_path : str;
  os_order : dir_order;
  stale_frames : gmap str Image;                (* [frames] before the run *)
  vidcap : Sampler.VideoCapture;                (* cv2.VideoCapture(video_path) *)
  open_clip : outcome VideoFileClip;            (* VideoFileClip(video_path) *)
  write_audiofile : list Z -> outcome unit;     (* video.audio.write_audiofile *)
  whisper_load_model : outcome unit;            (* whisper.load_model("base") *)
  whisper_transcribe : outcome str;             (* transcribe(audio_path)["text"] *)
  phi_from_pretrained : outcome unit;           (* processor and model loading *)
  phi_respond : Image -> outcome str;           (* processor, generate, batch_decode[0] *)
  strftime_now : str;                           (* datetime.now().strftime(...) *)
  format_1f : float -> str                      (* the format spec [.1f] *)
}.

(* ===================================================================== *)
(** * Step 3: audio extraction and transcription *)
(* ===================================================================== *)

Module Audio.

(** What [video.audio.write_audiofile] raises when [video.audio] is [None]. *)
Definition NoAudioTrack : exn :=
  AttributeError "'NoneType' object has no attribute 'write_audiofile'".

(** The [try] block. *)
Definition extract_audio (w : World) : M VideoFileClip :=
  do* video := lift (open_clip w) in
  match audio video with
  | None => raise NoAudioTrack
  | Some samples =>
      do* _ := emit EvWriteAudio in
      do* _ := lift (write_audiofile w samples) in
      ret video
  end.

(** The cell of Step 3; the handler prints and re-raises. *)
Definition step3 (w : World) : M (VideoFileClip * str) :=
  do* video := try_except (extract_audio w) (fun e => raise e) in
  do* _ := emit EvWhisperLoad in
  do* _ := lift (whisper_load_model w) in
  do* _ := emit EvTranscribe in
  do* transcript := lift (whisper_transcribe w) in
  ret (video, transcript).

End Audio.

(* ===================================================================== *)
(** * Step 4: the captioner *)
(* ===================================================================== *)

Module Captioner.

(** [Image.open(image_path)] on a path into [frames].  The folder holds
    what [cv2.imwrite] wrote, so a file that is there decodes; the one
    failure modelled is the missing file.  A file that exists and is not
    an image (for which [Image.open] raises another error) is not
    modelled. *)
Definition image_open (d : gmap str Image) (image_path : str) : outcome Image :=
  match strip_prefix (output_folder ++ lit "/") image_path with
  | Some f =>
      match d !! f with
      | Some image => Returns image
      | None =>
          Raises (Exn (lit "FileNotFoundError")
                    (lit "[Errno 2] No such file or directory: '"
                       ++ image_path ++ lit "'"))
      end
  | None =>
      Raises (Exn (lit "FileNotFoundError")
                (lit "[Errno 2] No such file or directory: '"
                   ++ image_path ++ lit "'"))
  end.

(** The [try] block of [analyze_image_with_phi]. *)
Definition analyze_body (w : World) (d : gmap str Image) (image_path : str)
  : M str :=
  do* image := lift (image_open d image_path) in
  do* _ := emit (EvCaption image_path) in
  do* response := lift (phi_respond w image) in
  ret (strip (List.last (split (lit "<|assistant|>") response) [])).

(** [def analyze_image_with_phi(image_path)] *)
Definition analyze_image_with_phi (w : World) (d : gmap str Image)
    (image_path : str) : M str :=
  try_except (analyze_body w d image_path)
    (fun e => ret (lit "Description failed: " ++ exn_str e)).

(** The same function without the trace: what the [try] block comes to,
    the string the function returns, and the calls it makes. *)
Definition body_outcome (w : World) (d : gmap str Image) (image_path : str)
  : outcome str :=
  let* image := image_open d image_path in
  let* response := phi_respond w image in
  Returns (strip (List.last (split (lit "<|assistant|>") response) [])).

Definition caption (w : World) (d : gmap str Image) (image_path : str) : str :=
  match body_outcome w d image_path with
  | Returns text => text
  | Raises e => lit "Description failed: " ++ exn_str e
  end.

Definition calls (d : gmap str Image) (image_path : str) : list event :=
  match image_open d image_path with
  | Returns _ => [EvCaption image_path]
  | Raises _ => []
  end.

(** The cell of Step 4: load the model, define the function. *)
Definition step4 (w : World) : M unit :=
  do* _ := emit EvPhiLoad in
  lift (phi_from_pretrained w).

End Captioner.

(* ===================================================================== *)
(** * Step 5: the analysis driver *)
(* ===================================================================== *)

Module Driver.

(** [fnmatch(f, "*.jpg")] as [glob] applies it: hidden files do not match. *)
Definition matches_jpg (f : str) : bool :=
  endswith (lit ".jpg") f && negb (startswith (lit ".") f).

(** [glob.glob(f"{output_folder}/*.jpg")] *)
Definition glob_jpg (order : dir_order) (d : gmap str Image) : list str :=
  map in_output_folder (filter (fun f => matches_jpg f = true) (listdir order d)).

(** [for i, img_path in enumerate(frame_files): ...append(desc)] *)
Fixpoint analyze_loop (w : World) (d : gmap str Image) (frame_files : list str)
    (frame_descriptions : list str) : M (list str) :=
  match frame_files with
  | [] => ret frame_descriptions
  | img_path :: rest =>
      do* desc := Captioner.analyze_image_with_phi w d img_path in
      analyze_loop w d rest (frame_descriptions ++ [desc])
  end.

(** What the guard [if not frame_files] raises. *)
Definition EmptyAnalysis : exn :=
  FileNotFoundError "No frames found for analysis".

(** The cell of Step 5, from the list [frame_files]. *)
Definition analyze_frames (w : World) (d : gmap str Image) (frame_files : list str)
  : M (list str) :=
  match frame_files with
  | [] => raise EmptyAnalysis
  | _ => analyze_loop w d frame_files []
  end.

Definition frame_files (w : World) (d : gmap str Image) : list str :=
  sorted (glob_jpg (os_order w) d).

Definition step5 (w : World) (d : gmap str Image) : M (list str) :=
  analyze_frames w d (frame_files w d).

End Driver.

(* ===================================================================== *)
(** * Step 6: the report *)
(* ===================================================================== *)

Module Report.

(** The f-string that starts the report. *)
Definition header (w : World) (video : VideoFileClip) (frame_descriptions : list str)
  : str :=
  [127909%N] ++ lit " VIDEO ANALYSIS REPORT" ++ nl
  ++ lit "Generated: " ++ strftime_now w ++ nl
  ++ lit "Original file: " ++ video_path w ++ nl
  ++ lit "Duration: " ++ format_1f w (duration video) ++ lit " seconds" ++ nl
  ++ lit "Frames analyzed: " ++ format_d (Z.of_nat (length frame_descriptions)) ++ nl
  ++ nl
  ++ lit "=== KEY OBSERVATIONS ===" ++ nl.

(** [if frame_descriptions: ...] first and last frame, 150 characters each. *)
Definition key_observations (frame_descriptions : list str) : str :=
  match frame_descriptions with
  | [] => []
  | first :: _ =>
      lit "- First frame: " ++ slice_to 150 first ++ lit "..." ++ nl
      ++ lit "- Last frame: " ++ slice_to 150 (List.last frame_descriptions [])
      ++ lit "..." ++ nl ++ nl
  end.

(** [timestamp = i * 2] *)
Definition timestamp (i : Z) : Z := i * 2.

(** [mins, secs = divmod(timestamp, 60)] and the tag
    [f"{int(mins):02d}:{int(secs):02d}"] *)
Definition mmss (i : Z) : str :=
  let mins := timestamp i / 60 in
  let secs := timestamp i mod 60 in
  format_0d 2 mins ++ lit ":" ++ format_0d 2 secs.

(** [f"\n[{i+1}] @ {...}\n{desc}\n"] *)
Definition entry (i : Z) (desc : str) : str :=
  nl ++ lit "[" ++ format_d (i + 1) ++ lit "] @ " ++ mmss i ++ nl ++ desc ++ nl.

(** [for i, desc in enumerate(frame_descriptions): report += ...],
    from index [i] on. *)
Fixpoint entries_loop (i : Z) (frame_descriptions : list str) (report : str) : str :=
  match frame_descriptions with
  | [] => report
  | desc :: rest => entries_loop (i + 1) rest (report ++ entry i desc)
  end.

(** The text of the report. *)
Definition report_text (w : World) (video : VideoFileClip)
    (frame_descriptions : list str) (transcript : str) : str :=
  let report := header w video frame_descriptions in
  let report := report ++ key_observations frame_descriptions in
  let report := report ++ lit "=== DETAILED FRAME DESCRIPTIONS ===" ++ nl in
  let report := entries_loop 0 frame_descriptions report in
  let report := report ++ nl ++ nl ++ lit "=== AUDIO TRANSCRIPT ===" ++ nl in
  report ++ transcript.

(** The cell of Step 6: build the report and write it. *)
Definition step6 (w : World) (video : VideoFileClip)
    (frame_descriptions : list str) (transcript : str) : M str :=
  let report := report_text w video frame_descriptions transcript in
  do* _ := emit (EvWriteReport report) in
  ret report.

End Report.

(* ===================================================================== *)
(** * The run of all cells *)
(* ===================================================================== *)

Module Notebook.

(** Steps 2 to 6 in the order of the notebook; [video_path] is what
    Step 1 left.  A cell that raises ends the run. *)
Definition run_all (w : World) : M str :=
  do* sampled := lift (Sampler.step2 (os_order w) (stale_frames w) (vidcap w)) in
  do* '(video, transcript) := Audio.step3 w in
  do* _ := Captioner.step4 w in
  do* frame_descriptions :=
    Driver.step5 w (Sampler.frames (Sampler.final sampled)) in
  Report.step6 w video frame_descriptions transcript.

Definition run (w : World) : outcome str * list event := run_all w [].

End Notebook.

(* ===================================================================== *)
(** * A test double: fixed fakes for the collaborators *)
(* ===================================================================== *)

Module Fake.

Definition listing_order : dir_order := DirOrder (fun l => l) (fun l => reflexivity l).

(** A capture at 30 fps whose frame [n] decodes to the one-element
    payload [n / 60], the index of the sample taken there. *)
Definition capture (frame_count : Z) : Sampler.VideoCapture :=
  {| Sampler.isOpened := true;
     Sampler.CAP_PROP_FPS := float_of_int 30;
     Sampler.CAP_PROP_FRAME_COUNT := float_of_int frame_count;
     Sampler.read_at := fun n => Some [Z.to_N (n / 60)] |}.

(** The captioner returns ["desc-<index>"], except on the payloads in
    [bad], where it raises; the transcriber returns ["hello world"]. *)
Definition world (frame_count : Z) (bad : list N) : World :=
  {| video_path := lit "clip.mp4";
     os_order := listing_order;
     stale_frames := {[ lit "frame_0007.jpg" := [99%N] ]};
     vidcap := capture frame_count;
     open_clip := Returns {| audio := Some [0; 1; 0]; duration := float_of_int 5 |};
     write_audiofile := fun _ => Returns tt;
     whisper_load_model := Returns tt;
     whisper_transcribe := Returns (lit "hello world");
     phi_from_pretrained := Returns tt;
     phi_respond := fun image =>
       match image with
       | [i] => if existsb (N.eqb i) bad
                then Raises (RuntimeError "CUDA out of memory")
                else Returns (lit "<|user|> Describe <|assistant|> desc-" ++ digits i ++ nl)
       | _ => Raises (ValueError "malformed image")
       end;
     strftime_now := lit "2024-01-01 00:00:00";
     format_1f := fun _ => lit "5.0" |}.

(** Three sampled frames in the folder, and their paths. *)
Definition frames3 : gmap str Image :=
  Sampler.write_from ∅ 0 [[0%N]; [1%N]; [2%N]].
Definition files3 : list str :=
  map fst (Sampler.log_from 0 [[0%N]; [1%N]; [2%N]]).

(** A clip without an audio stream. *)
Definition silent (w : World) : World :=
  {| video_path := video_path w;
     os_order := os_order w;
     stale_frames := stale_frames w;
     vidcap := vidcap w;
     open_clip := Returns {| audio := None; duration := float_of_int 5 |};
     write_audiofile := write_audiofile w;
     whisper_load_model := whisper_load_model w;
     whisper_transcribe := whisper_transcribe w;
     phi_from_pretrained := phi_from_pretrained w;
     phi_respond := phi_respond w;
     strftime_now := strftime_now w;
     format_1f := format_1f w |}.

End Fake.

(* ===================================================================== *)
(** * The step and the frame count in the words of the specification *)
(* ===================================================================== *)

Module Spec.

(** [round(q)]: to the nearest integer, ties to the even one. *)
Definition round_half_even (q : Q) : Z :=
  let f := Qfloor q in
  match ((q - inject_Z f) ?= (1 # 2))%Q with
  | Lt => f
  | Gt => f + 1
  | Eq => if Z.even f then f else f + 1
  end.

(** The frame rate used for the step: the decoded rate, or 30 when the
    decoded rate is not positive. *)
Definition rate (cap_fps : float) : option Q :=
  if float_leb cap_fps (float_of_int 0) then Some (inject_Z 30)
  else float_to_Q cap_fps.

(** The step as specified: [round(frameRate × interval)]. *)
Definition step (cap_fps : float) (interval : Q) : option Z :=
  match rate cap_fps with
  | Some r => Some (round_half_even (r * interval))
  | None => None
  end.

(** [ceil(a / b)] for a positive [b]. *)
Definition ceil_div (a b : Z) : Z := - ((- a) / b).

End Spec.

(* ===================================================================== *)
(** * Readings of the cells used to state further properties *)
(* ===================================================================== *)

Module View.

(** The frame numbers of [nums] the capture decodes, in order. *)
Fixpoint kept (cap : Sampler.VideoCapture) (nums : list Z) : list Z :=
  match nums with
  | [] => []
  | n :: rest =>
      match Sampler.read_at cap n with
      | Some _ => n :: kept cap rest
      | None => kept cap rest
      end
  end.

(** Whether [sep] occurs in [s]. *)
Fixpoint occurs (sep s : str) : bool :=
  startswith sep s
  || match s with
     | [] => false
     | _ :: s' => occurs sep s'
     end.

(** Reading a string of decimal digits back, as [int(s)] does: the
    digits as a [Decimal.uint], then its value. *)
Fixpoint uint_of_codes (s : str) : option Decimal.uint :=
  match s with
  | [] => Some Decimal.Nil
  | c :: s' =>
      match uint_of_codes s' with
      | None => None
      | Some d =>
          (if c =? 48 then Some (Decimal.D0 d) else
           if c =? 49 then Some (Decimal.D1 d) else
           if c =? 50 then Some (Decimal.D2 d) else
           if c =? 51 then Some (Decimal.D3 d) else
           if c =? 52 then Some (Decimal.D4 d) else
           if c =? 53 then Some (Decimal.D5 d) else
           if c =? 54 then Some (Decimal.D6 d) else
           if c =? 55 then Some (Decimal.D7 d) else
           if c =? 56 then Some (Decimal.D8 d) else
           if c =? 57 then Some (Decimal.D9 d) else None)%N
      end
  end.

Definition int_of_digits (s : str) : option Z :=
  match s, uint_of_codes s with
  | _ :: _, Some d => Some (Z.of_N (N.of_uint d))
  | _, _ => None
  end.

(** The sequence index written in a frame name: what is between
    ["frame_"] and [".jpg"], read as a number. *)
Definition index_of_name (f : str) : option Z :=
  match strip_prefix (lit "frame_") f with
  | Some rest =>
      match strip_prefix (rev (lit ".jpg")) (rev rest) with
      | Some ds => int_of_digits (rev ds)
      | None => None
      end
  | None => None
  end.

(** The separator of [response.split("<|assistant|>")]. *)
Definition marker : str := lit "<|assistant|>".

(** Whether [Image.open] succeeds on a path. *)
Definition opens (d : gmap str Image) (image_path : str) : bool :=
  match Captioner.image_open d image_path with
  | Returns _ => true
  | Raises _ => false
  end.

(** The calls that load or run the captioner. *)
Definition calls_captioner (ev : event) : bool :=
  match ev with
  | EvPhiLoad | EvCaption _ => true
  | _ => false
  end.

(** Reading a tag [MM:SS] back: the digits before the first [':'] as
    minutes, those after it as seconds, and the seconds they stand for. *)
Fixpoint before_colon (s : str) : str :=
  match s with
  | [] => []
  | c :: s' => if (c =? 58)%N then [] else c :: before_colon s'
  end.

Fixpoint after_colon (s : str) : option str :=
  match s with
  | [] => None
  | c :: s' => if (c =? 58)%N then Some s' else after_colon s'
  end.

Definition tag_seconds (tag : str) : option Z :=
  match int_of_digits (before_colon tag), after_colon tag with
  | Some mins, Some rest =>
      match int_of_digits rest with
      | Some secs => Some (60 * mins + secs)
      | None => None
      end
  | _, _ => None
  end.

(** The three calls of Step 3, in the order of the cell. *)
Definition step3_calls : list event := [EvWriteAudio; EvWhisperLoad; EvTranscribe].

End View.

(* ===================================================================== *)
(** * Doubling a binary64 number *)
(* ===================================================================== *)

Section Doubling.

Lemma mul_two52 m : (m * 4503599627370496)%positive = Pos.iter xO m 52.
Proof. rewrite Pos.mul_comm. reflexivity. Qed.

Lemma digits_two52 m :
  Z.pos (digits2_pos (Pos.iter xO m 52)) = Z.pos (digits2_pos m) + 52.
Proof.
  change (digits2_pos (Pos.iter xO m 52))
    with (Pos.iter Pos.succ (digits2_pos m) 52).
  cbn [Pos.iter]. rewrite !Pos2Z.inj_succ. lia.
Qed.

Lemma shr_52 m E :
  shr (Build_shr_record (Z.pos (Pos.iter xO m 52)) false false) E 52 =
  (Build_shr_record (Z.pos m) false false, E + 52).
Proof. reflexivity. Qed.

Lemma shr_51 m E :
  shr (Build_shr_record (Z.pos (Pos.iter xO m 52)) false false) E 51 =
  (Build_shr_record (Z.pos m~0) false false, E + 51).
Proof. reflexivity. Qed.

(** The mantissa and exponent of a valid number: either it is normal
    (53 digits) or it sits at the least exponent. *)
Lemma bounded_inv m e :
  bounded prec emax m e = true ->
  e <= 971 /\
  (Z.pos (digits2_pos m) = 53 /\ -1074 <= e
   \/ Z.pos (digits2_pos m) < 53 /\ e = -1074).
Proof.
  unfold bounded, canonical_mantissa, fexp, SpecFloat.emin, prec, emax.
  intros [Hc He%Z.leb_le]%andb_true_iff. apply Z.eqb_eq in Hc. lia.
Qed.

(** [x * 2] is exact: the exponent goes up by one, or, for a subnormal
    number, the mantissa doubles; past the largest exponent the product
    is an infinity. *)
Lemma float_double s m e :
  bounded prec emax m e = true ->
  float_mul (S754_finite s m e) (float_of_int 2) =
    if Z.pos (digits2_pos m) <? 53 then S754_finite s m~0 e
    else if e + 1 <=? 971 then S754_finite s m (e + 1)
    else S754_infinity s.
Proof.
  intros Hb. destruct (bounded_inv _ _ Hb) as [He Hd].
  change (float_of_int 2) with (S754_finite false 4503599627370496 (-51)).
  unfold float_mul, SFmul. rewrite xorb_false_r, mul_two52.
  unfold binary_round_aux, shr_fexp. unfold Zdigits2 at 1.
  rewrite digits_two52.
  set (d := Z.pos (digits2_pos m)) in *.
  unfold fexp, SpecFloat.emin, prec, emax.
  destruct (Z.ltb_spec d 53) as [Hlt|Hge].
  - replace (Z.max (d + 52 + (e + -51) - 53) (3 - 1024 - 53) - (e + -51))
      with 51 by lia.
    cbn [shr_record_of_loc]. rewrite shr_51.
    cbn [shr_m loc_of_shr_record round_nearest_even].
    change (Zdigits2 (Z.pos m~0)) with (Z.pos (Pos.succ (digits2_pos m))).
    rewrite Pos2Z.inj_succ. fold d.
    replace (Z.max (Z.succ d + (e + -51 + 51) - 53) (3 - 1024 - 53)
             - (e + -51 + 51)) with 0 by lia.
    cbn [shr shr_record_of_loc shr_m].
    replace (e + -51 + 51) with e by lia.
    destruct (Z.leb_spec e (1024 - 53)); [reflexivity | lia].
  - replace (Z.max (d + 52 + (e + -51) - 53) (3 - 1024 - 53) - (e + -51))
      with 52 by lia.
    cbn [shr_record_of_loc]. rewrite shr_52.
    cbn [shr_m loc_of_shr_record round_nearest_even].
    change (Zdigits2 (Z.pos m)) with d.
    replace (Z.max (d + (e + -51 + 52) - 53) (3 - 1024 - 53)
             - (e + -51 + 52)) with 0 by lia.
    cbn [shr shr_record_of_loc shr_m].
    replace (e + -51 + 52) with (e + 1) by lia.
    reflexivity.
Qed.

Lemma digits2_size m : digits2_pos m = Pos.size m.
Proof. induction m as [m IH|m IH|]; cbn; congruence. Qed.

Lemma mantissa_lt m : Z.pos m < 2 ^ Z.pos (digits2_pos m).
Proof.
  rewrite digits2_size. pose proof (Pos.size_gt m) as H.
  apply Pos2Z.pos_lt_pos in H. rewrite Pos2Z.inj_pow in H. exact H.
Qed.

Lemma mantissa_ge m : 2 ^ (Z.pos (digits2_pos m) - 1) <= Z.pos m.
Proof.
  rewrite digits2_size. pose proof (Pos.size_le m) as H.
  apply Pos2Z.pos_le_pos in H. rewrite Pos2Z.inj_pow in H.
  replace (Z.pos (Pos.size m)) with (Z.succ (Z.pos (Pos.size m) - 1)) in H by lia.
  rewrite Z.pow_succ_r in H by lia. lia.
Qed.

(** Comparison of a valid positive number with a power of two
    [2^52 * 2^k], itself a valid number. *)
Lemma ltb_pow2_inv m e k :
  bounded prec emax m e = true -> -1074 < k ->
  float_ltb (S754_finite false m e) (S754_finite false 4503599627370496 k) = true ->
  e < k.
Proof.
  intros Hb Hk. destruct (bounded_inv _ _ Hb) as [_ Hd]. clear Hb.
  unfold float_ltb, SFltb, SFcompare.
  destruct (Z.compare_spec e k) as [->|Hlt|Hgt]; [|lia|discriminate].
  destruct (Pos.compare_cont Eq m 4503599627370496) eqn:Hc; try discriminate.
  intros _. pose proof (proj1 (Pos.compare_lt_iff m _) Hc) as Hlt.
  apply Pos2Z.pos_lt_pos in Hlt. clear Hc.
  destruct Hd as [[Hd _]|[_ Hd]]; [|lia].
  pose proof (mantissa_ge m) as Hm.
  rewrite Hd in Hm. change (2 ^ (53 - 1)) with 4503599627370496 in Hm. lia.
Qed.

End Doubling.

(* ===================================================================== *)
(** * Step 2: the step *)
(* ===================================================================== *)

Section Step.

Import Sampler.

Lemma trunc_scaled_double (m : positive) (e : Z) :
  Qfloor ((if 0 <=? e then inject_Z (Z.pos m * 2 ^ e)
           else Z.pos m # Z.to_pos (2 ^ (- e))) * inject_Z 2)
  = if 0 <=? e + 1 then Z.pos m * 2 ^ (e + 1) else Z.pos m / 2 ^ (- (e + 1)).
Proof.
  destruct (Z.leb_spec 0 e) as [He|He].
  - destruct (Z.leb_spec 0 (e + 1)); [|lia].
    unfold Qfloor, Qmult, inject_Z; cbn [Qnum Qden].
    rewrite Z.pow_add_r by lia. change (2 ^ 1) with 2.
    change (Z.pos (1 * 1)) with 1. rewrite Z.div_1_r. ring.
  - assert (Hp : 0 < 2 ^ (- e)) by (apply Z.pow_pos_nonneg; lia).
    unfold Qfloor, Qmult, inject_Z; cbn [Qnum Qden].
    rewrite Pos.mul_1_r, Z2Pos.id by exact Hp.
    replace (- e) with (Z.succ (- (e + 1))) by lia.
    rewrite Z.pow_succ_r by lia.
    rewrite (Z.mul_comm 2), Z.div_mul_cancel_r; [|apply Z.pow_nonzero; lia|lia].
    destruct (Z.leb_spec 0 (e + 1)) as [He1|He1]; [|reflexivity].
    replace (e + 1) with 0 by lia. cbn. now rewrite Z.div_1_r, Z.mul_1_r.
Qed.

(** A valid positive frame rate below [2^1023]: the step is the floor of
    twice the rate. *)
Lemma frame_interval_floor m e :
  bounded prec emax m e = true -> e < 971 ->
  exists q, float_to_Q (S754_finite false m e) = Some q
            /\ frame_interval (S754_finite false m e)
               = Returns (Qfloor (q * inject_Z 2)).
Proof.
  intros Hb He. eexists; split; [reflexivity|].
  unfold frame_interval, fps_or_fallback. cbn [num_le_zero float_leb SFleb SFcompare].
  cbn [num_mul_int int_of]. rewrite float_double by exact Hb.
  destruct (bounded_inv _ _ Hb) as [_ Hd].
  destruct (Z.ltb_spec (Z.pos (digits2_pos m)) 53) as [Hlt|Hge].
  - destruct Hd as [[Hd _]|[_ ->]]; [lia|].
    cbn [float_trunc]. f_equal.
    change (0 <=? -1074) with false. cbv iota.
    unfold Qfloor, Qmult, inject_Z; cbn [Qnum Qden].
    rewrite Pos.mul_1_r, Z2Pos.id by (apply Z.pow_pos_nonneg; lia).
    now rewrite (Z.mul_comm (Z.pos m) 2).
  - destruct (Z.leb_spec (e + 1) 971); [|lia].
    cbn [float_trunc]. f_equal. symmetry. apply trunc_scaled_double.
Qed.

(** A frame rate that is not positive: the step is that of 30 fps. *)
Lemma frame_interval_fallback fps :
  float_leb fps (float_of_int 0) = true -> frame_interval fps = Returns 60.
Proof.
  intros H. unfold frame_interval, fps_or_fallback. cbn [num_le_zero].
  change (S754_zero false) with (float_of_int 0). now rewrite H.
Qed.

Lemma leb_zero_false_inv fps :
  float_leb fps (float_of_int 0) = false ->
  float_ltb fps (float_of_scaled 1 1023) = true ->
  exists m e, fps = S754_finite false m e.
Proof.
  destruct fps as [s|s| |s m e]; try discriminate.
  - destruct s; discriminate.
  - destruct s; [discriminate|]. intros _ _. eauto.
Qed.

(** A valid rate strictly between 0 and 0.5: the step is zero. *)
Lemma frame_interval_zero fps :
  float_valid fps = true ->
  float_ltb (float_of_int 0) fps = true ->
  float_ltb fps (float_of_scaled 1 (-1)) = true ->
  frame_interval fps = Returns 0.
Proof.
  intros Hv Hpos Hhalf.
  destruct fps as [s|s| |s m e]; try discriminate.
  { destruct s; discriminate. }
  destruct s; [discriminate|]. cbn [float_valid valid_binary] in Hv.
  pose proof (ltb_pow2_inv m e (-53) Hv ltac:(lia) Hhalf) as He.
  destruct (frame_interval_floor m e Hv ltac:(lia)) as (q & Hq & ->).
  f_equal. cbn [float_to_Q] in Hq. injection Hq as <-.
  rewrite trunc_scaled_double.
  destruct (Z.leb_spec 0 (e + 1)); [lia|].
  apply Z.div_small. split; [lia|].
  pose proof (mantissa_lt m) as Hm. destruct (bounded_inv _ _ Hv) as [_ Hd].
  eapply Z.lt_le_trans; [exact Hm|]. apply Z.pow_le_mono_r; lia.
Qed.

(** The step is never negative. *)
Lemma frame_interval_nonneg fps s :
  float_valid fps = true -> frame_interval fps = Returns s -> 0 <= s.
Proof.
  intros Hv. unfold frame_interval, fps_or_fallback.
  destruct (num_le_zero (PyFloat fps)) eqn:Hle.
  { cbn. intros [= <-]. lia. }
  cbn [num_mul_int int_of].
  destruct fps as [[]|[]| |[] m e]; try discriminate.
  cbn [float_valid valid_binary] in Hv. rewrite float_double by exact Hv.
  assert (Hpow : forall k, 0 <= k -> 0 < 2 ^ k)
    by (intros; apply Z.pow_pos_nonneg; lia).
  destruct (Z.pos (digits2_pos m) <? 53); [|destruct (e + 1 <=? 971)];
    cbn [float_trunc]; try discriminate; intros [= <-].
  - destruct (Z.leb_spec 0 e) as [He|He].
    + pose proof (Hpow e He). nia.
    + apply Z.div_pos; [lia|]. apply Hpow. lia.
  - destruct (Z.leb_spec 0 (e + 1)) as [He|He].
    + pose proof (Hpow (e + 1) He). nia.
    + apply Z.div_pos; [lia|]. apply Hpow. lia.
Qed.

(** A rate that is not a number has no step. *)
Lemma frame_interval_nan :
  frame_interval S754_nan
  = Raises (ValueError "cannot convert float NaN to integer").
Proof. reflexivity. Qed.

End Step.

(** C1, as stated, fails: at 14.875 fps the step is [int(29.75) = 29],
    while [round(14.875 × 2)] is 30. *)
Lemma frame_interval_is_not_round :
  let fps := float_of_scaled 119 (-3) in
  float_valid fps = true
  /\ Sampler.frame_interval fps = Returns 29
  /\ Spec.step fps (inject_Z 2) = Some 30
  /\ Spec.step fps (inject_Z 2) <> Some 29.
Proof. vm_compute. repeat split. discriminate. Qed.

(** 29.97 fps, the nearest binary64 number: the step is 59. *)
Example frame_interval_ntsc :
  Sampler.frame_interval (float_of_scaled 8435805052018360 (-48)) = Returns 59.
Proof. reflexivity. Qed.

(** C1 (amended): for every valid decoded frame rate below [2^1023] the
    step is computed with the interval fixed at 2 seconds, from the decoded
    rate or, when that is not positive, from the fallback rate 30; with the
    fallback in effect it is [round(30 × 2) = 60], and otherwise it is the
    product [frameRate × 2] truncated (its floor), not rounded. *)
Theorem frame_interval_truncates (fps : float) :
  float_valid fps = true ->
  float_ltb fps (float_of_scaled 1 1023) = true ->
  exists r, Spec.rate fps = Some r
    /\ Sampler.frame_interval fps
        = Returns (if float_leb fps (float_of_int 0)
                   then Spec.round_half_even (inject_Z 30 * inject_Z 2)
                   else Qfloor (r * inject_Z 2)).
Proof.
  intros Hv Hlt. unfold Spec.rate.
  destruct (float_leb fps (float_of_int 0)) eqn:Hle.
  - eexists; split; [reflexivity|]. now apply frame_interval_fallback.
  - destruct (leb_zero_false_inv fps Hle Hlt) as (m & e & ->).
    cbn [float_valid valid_binary] in Hv.
    apply frame_interval_floor; [exact Hv|].
    exact (ltb_pow2_inv m e 971 Hv ltac:(lia) Hlt).
Qed.

Lemma frame_interval_truncates_witness :
  exists r, Spec.rate (float_of_scaled 8435805052018360 (-48)) = Some r
    /\ Sampler.frame_interval (float_of_scaled 8435805052018360 (-48))
        = Returns (if float_leb (float_of_scaled 8435805052018360 (-48)) (float_of_int 0)
                   then Spec.round_half_even (inject_Z 30 * inject_Z 2)
                   else Qfloor (r * inject_Z 2)).
Proof.
  apply (frame_interval_truncates (float_of_scaled 8435805052018360 (-48)));
    vm_compute; reflexivity.
Defined.

(* ===================================================================== *)
(** * Step 2: the sampling loop *)
(* ===================================================================== *)

Section Sampling.

Import Sampler.

Lemma ceil_div_nonpos a b : 0 < b -> a <= 0 -> Spec.ceil_div a b <= 0.
Proof.
  intros Hb Ha. unfold Spec.ceil_div.
  assert (0 <= (- a) / b) by (apply Z.div_pos; lia). lia.
Qed.

Lemma ceil_div_step a b :
  0 < b -> 0 < a -> Spec.ceil_div a b = Spec.ceil_div (a - b) b + 1 /\ 1 <= Spec.ceil_div a b.
Proof.
  intros Hb Ha. unfold Spec.ceil_div.
  replace (- (a - b)) with (- a + 1 * b) by lia.
  rewrite Z.div_add by lia.
  assert ((- a) / b < 0) by (apply Z.div_lt_upper_bound; lia). lia.
Qed.

Lemma ceil_div_le a b : 0 < b -> 0 <= a -> Spec.ceil_div a b <= a.
Proof.
  intros Hb Ha. unfold Spec.ceil_div.
  assert (- a <= (- a) / b); [|lia].
  apply Z.div_le_lower_bound; nia.
Qed.

(** The loop of [range] with a positive step yields [ceil((stop - cur) / step)]
    numbers, all of them between [cur] and [stop]. *)
Lemma range_from_length step stop fuel : forall cur,
  1 <= step -> stop - cur <= Z.of_nat fuel ->
  length (range_from false fuel cur stop step)
  = Z.to_nat (Spec.ceil_div (stop - cur) step).
Proof.
  induction fuel as [|fuel IH]; intros cur Hs Hf; cbn [range_from].
  - pose proof (ceil_div_nonpos (stop - cur) step). cbn [length]. lia.
  - destruct (Z.ltb_spec cur stop) as [Hlt|Hge].
    + cbn [length]. rewrite IH by lia.
      destruct (ceil_div_step (stop - cur) step) as [Heq Hge]; [lia..|].
      replace (stop - (cur + step)) with (stop - cur - step) by lia. lia.
    + pose proof (ceil_div_nonpos (stop - cur) step). cbn [length]. lia.
Qed.

Lemma range_from_bounds step stop fuel : forall cur x,
  1 <= step -> In x (range_from false fuel cur stop step) -> cur <= x < stop.
Proof.
  induction fuel as [|fuel IH]; intros cur x Hs; cbn [range_from]; [intros []|].
  destruct (Z.ltb_spec cur stop) as [Hlt|Hge]; [|intros []].
  intros [<-|Hin]; [lia|]. apply IH in Hin; lia.
Qed.

Lemma range_positive_step stop step :
  1 <= step ->
  exists nums, range stop step = Returns nums
    /\ Z.of_nat (length nums) = Z.max 0 (Spec.ceil_div stop step)
    /\ forall x, In x nums -> 0 <= x < stop.
Proof.
  intros Hs. unfold range.
  destruct (Z.eqb_spec step 0); [lia|].
  destruct (Z.ltb_spec step 0); [lia|].
  eexists; split; [reflexivity|]. split.
  - rewrite range_from_length by lia. rewrite Z.sub_0_r. lia.
  - intros x Hx. now apply range_from_bounds in Hx.
Qed.

Lemma loop_spec cap nums : forall st,
  fold_left (loop_body cap) nums st
  = LoopState (saved_count st + Z.of_nat (length (decoded cap nums)))
      (write_from (frames st) (saved_count st) (decoded cap nums))
      (imwrite_log st ++ log_from (saved_count st) (decoded cap nums)).
Proof.
  induction nums as [|n nums IH]; intros [c d l]; cbn [fold_left].
  - cbn. now rewrite Z.add_0_r, app_nil_r.
  - rewrite IH. unfold loop_body. cbn [decoded].
    destruct (read_at cap n) as [image|]; cbn [saved_count frames imwrite_log].
    + cbn [length write_from log_from].
      rewrite <- app_assoc. cbn [app]. f_equal. lia.
    + reflexivity.
Qed.

Lemma log_from_length n imgs : length (log_from n imgs) = length imgs.
Proof. revert n; induction imgs; intros; cbn; auto. Qed.

Lemma decoded_all cap nums :
  (forall n, In n nums -> is_Some (read_at cap n)) ->
  length (decoded cap nums) = length nums.
Proof.
  induction nums as [|n nums IH]; intros H; [reflexivity|].
  cbn [decoded]. destruct (H n (or_introl eq_refl)) as [image ->].
  cbn [length]. f_equal. apply IH. intros; apply H; now right.
Qed.

(** Clearing removes every file of the folder. *)
Lemma fold_delete_lookup (l : list str) : forall (d : gmap str Image) k,
  fold_left (fun d f => delete f d) l d !! k
  = if decide (k ∈ l) then None else d !! k.
Proof.
  induction l as [|f l IH]; intros d k; cbn [fold_left].
  - destruct (decide (k ∈ [])) as [H|_]; [inversion H|reflexivity].
  - rewrite IH. destruct (decide (k ∈ l)) as [Hl|Hl].
    + rewrite decide_True by (now right). reflexivity.
    + destruct (decide (k = f)) as [->|Hne].
      * rewrite decide_True by (now left). apply lookup_delete_eq.
      * rewrite decide_False by (intros [?|?]%elem_of_cons; tauto).
        now apply lookup_delete_ne.
Qed.

Lemma clear_frames_empty (order : dir_order) (d : gmap str Image) : clear_frames order d = ∅.
Proof.
  apply map_eq. intros k. rewrite lookup_empty. unfold clear_frames, listdir.
  rewrite fold_delete_lookup.
  destruct (decide (k ∈ order (elements (dom d)))) as [_|Hn]; [reflexivity|].
  apply not_elem_of_dom. intros Hk. apply Hn.
  rewrite (order_perm order). now apply elem_of_elements.
Qed.

(** What the cell of Step 2 does once the capture is open and both
    conversions to [int] succeed, with a positive step. *)
Lemma step2_returns (order : dir_order) stale cap s total :
  isOpened cap = true ->
  frame_interval (CAP_PROP_FPS cap) = Returns s -> 1 <= s ->
  int_of (PyFloat (CAP_PROP_FRAME_COUNT cap)) = Returns total ->
  exists nums, range total s = Returns nums
    /\ Z.of_nat (length nums) = Z.max 0 (Spec.ceil_div total s)
    /\ (forall x, In x nums -> 0 <= x < total)
    /\ step2 order stale cap
       = Returns (Result total
           (LoopState (Z.of_nat (length (decoded cap nums)))
              (write_from ∅ 0 (decoded cap nums))
              (log_from 0 (decoded cap nums)))).
Proof.
  intros Ho Hs Hpos Ht.
  destruct (range_positive_step total s Hpos) as (nums & Hr & Hlen & Hin).
  exists nums. repeat split; try assumption; try (now apply Hin).
  unfold step2. rewrite Ho, Hs. cbn [negb bind]. rewrite Ht. cbn [bind].
  rewrite Hr. cbn [bind]. rewrite loop_spec, clear_frames_empty. reflexivity.
Qed.

End Sampling.

(** C2: when the capture is open, the step is at least 1 and every frame
    of the source decodes, Step 2 returns, and the frames it wrote number
    [ceil(total_frames / step)], or 0 when that is negative; the count is
    at most the number of frames of the source. *)
Theorem sampled_frame_count (order : dir_order) stale cap s total :
  Sampler.isOpened cap = true ->
  Sampler.frame_interval (Sampler.CAP_PROP_FPS cap) = Returns s -> 1 <= s ->
  int_of (PyFloat (Sampler.CAP_PROP_FRAME_COUNT cap)) = Returns total ->
  (forall n, 0 <= n < total -> is_Some (Sampler.read_at cap n)) ->
  exists r, Sampler.step2 order stale cap = Returns r
    /\ Sampler.total_frames r = total
    /\ Z.of_nat (length (Sampler.imwrite_log (Sampler.final r)))
       = Z.max 0 (Spec.ceil_div total s)
    /\ Sampler.saved_count (Sampler.final r) = Z.max 0 (Spec.ceil_div total s)
    /\ 0 <= Sampler.saved_count (Sampler.final r) <= Z.max 0 total.
Proof.
  intros Ho Hs Hpos Ht Hdec.
  destruct (step2_returns order stale cap s total Ho Hs Hpos Ht)
    as (nums & _ & Hlen & Hin & ->).
  eexists; split; [reflexivity|].
  cbn [Sampler.total_frames Sampler.final Sampler.imwrite_log Sampler.saved_count].
  rewrite log_from_length, decoded_all by (intros n Hn; apply Hdec, Hin, Hn).
  repeat split; try assumption; try lia.
  rewrite Hlen. destruct (Z.le_gt_cases total 0) as [Hle|Hgt].
  - pose proof (ceil_div_nonpos total s). lia.
  - pose proof (ceil_div_le total s). lia.
Qed.

Lemma sampled_frame_count_witness :
  exists r, Sampler.step2 Fake.listing_order ∅ (Fake.capture 150) = Returns r
    /\ Sampler.total_frames r = 150
    /\ Z.of_nat (length (Sampler.imwrite_log (Sampler.final r)))
       = Z.max 0 (Spec.ceil_div 150 60)
    /\ Sampler.saved_count (Sampler.final r) = Z.max 0 (Spec.ceil_div 150 60)
    /\ 0 <= Sampler.saved_count (Sampler.final r) <= Z.max 0 150.
Proof.
  apply (sampled_frame_count Fake.listing_order ∅ (Fake.capture 150) 60 150);
    [reflexivity | reflexivity | lia | reflexivity |].
  intros n _. simpl. eexists. reflexivity.
Defined.

(** C9: for every valid decoded frame rate strictly between 0 and 0.5 the
    fallback is not taken, the step [int(fps * 2)] is 0, and the cell of
    Step 2 raises instead of sampling: [range] refuses the zero step
    (unless the capture is not open, or the frame count has no [int]
    value, which raise before the loop). *)
Theorem zero_step_raises (order : dir_order) stale cap :
  float_valid (Sampler.CAP_PROP_FPS cap) = true ->
  float_ltb (float_of_int 0) (Sampler.CAP_PROP_FPS cap) = true ->
  float_ltb (Sampler.CAP_PROP_FPS cap) (float_of_scaled 1 (-1)) = true ->
  Sampler.fps_or_fallback (Sampler.CAP_PROP_FPS cap)
    = PyFloat (Sampler.CAP_PROP_FPS cap)
  /\ Sampler.frame_interval (Sampler.CAP_PROP_FPS cap) = Returns 0
  /\ Sampler.step2 order stale cap
     = Raises (if Sampler.isOpened cap
               then match int_of (PyFloat (Sampler.CAP_PROP_FRAME_COUNT cap)) with
                    | Returns _ => ValueError "range() arg 3 must not be zero"
                    | Raises e => e
                    end
               else RuntimeError "Error opening video file").
Proof.
  intros Hv Hpos Hhalf.
  pose proof (frame_interval_zero _ Hv Hpos Hhalf) as Hz.
  split; [|split; [exact Hz|]].
  - unfold Sampler.fps_or_fallback. cbn [num_le_zero].
    destruct (Sampler.CAP_PROP_FPS cap) as [[]|[]| |[] m e]; try discriminate;
      reflexivity.
  - unfold Sampler.step2. destruct (Sampler.isOpened cap); [|reflexivity].
    cbn [negb]. rewrite Hz. cbn [bind].
    destruct (int_of (PyFloat (Sampler.CAP_PROP_FRAME_COUNT cap))); reflexivity.
Qed.

Lemma zero_step_raises_witness :
  let cap := {| Sampler.isOpened := true;
                Sampler.CAP_PROP_FPS := float_of_scaled 1 (-2);
                Sampler.CAP_PROP_FRAME_COUNT := float_of_int 100;
                Sampler.read_at := fun _ => Some [] |} in
  Sampler.fps_or_fallback (float_of_scaled 1 (-2)) = PyFloat (float_of_scaled 1 (-2))
  /\ Sampler.frame_interval (float_of_scaled 1 (-2)) = Returns 0
  /\ Sampler.step2 Fake.listing_order ∅ cap
     = Raises (ValueError "range() arg 3 must not be zero").
Proof.
  intros cap.
  apply (zero_step_raises Fake.listing_order ∅ cap); reflexivity.
Defined.

(* ===================================================================== *)
(** * Steps 4 and 5: captions *)
(* ===================================================================== *)

Section Captions.

Variable w : World.
Variable d : gmap str Image.

Lemma analyze_body_run image_path t :
  Captioner.analyze_body w d image_path t
  = (Captioner.body_outcome w d image_path, t ++ Captioner.calls d image_path).
Proof.
  unfold Captioner.analyze_body, Captioner.body_outcome, Captioner.calls,
    bindM, lift, emit, ret.
  destruct (Captioner.image_open d image_path) as [image|e]; cbn [bind].
  - destruct (phi_respond w image); reflexivity.
  - now rewrite app_nil_r.
Qed.

(** [analyze_image_with_phi] always returns. *)
Lemma analyze_image_run image_path t :
  Captioner.analyze_image_with_phi w d image_path t
  = (Returns (Captioner.caption w d image_path), t ++ Captioner.calls d image_path).
Proof.
  unfold Captioner.analyze_image_with_phi, try_except, Captioner.caption.
  rewrite analyze_body_run.
  destruct (Captioner.body_outcome w d image_path); reflexivity.
Qed.

Lemma analyze_loop_run files : forall acc t,
  Driver.analyze_loop w d files acc t
  = (Returns (acc ++ map (Captioner.caption w d) files),
     t ++ concat (map (Captioner.calls d) files)).
Proof.
  induction files as [|p files IH]; intros acc t; cbn [Driver.analyze_loop].
  - unfold ret. cbn. now rewrite !app_nil_r.
  - unfold bindM. rewrite analyze_image_run, IH. cbn [map concat].
    now rewrite <- !app_assoc.
Qed.

Lemma analyze_frames_run files t :
  Driver.analyze_frames w d files t
  = match files with
    | [] => (Raises Driver.EmptyAnalysis, t)
    | _ => (Returns (map (Captioner.caption w d) files),
            t ++ concat (map (Captioner.calls d) files))
    end.
Proof.
  destruct files as [|p files]; [reflexivity|].
  unfold Driver.analyze_frames. now rewrite analyze_loop_run.
Qed.

End Captions.

(** C3: when the [try] block of the captioner raises [e] on the frame at
    index [i], the driver still returns, with one description per frame,
    and the description at index [i] is ["Description failed: "] followed
    by [str(e)]. *)
Theorem caption_failure_is_recorded (w : World) (d : gmap str Image)
    (frame_files : list str) (i : nat) (img_path : str) (e : exn) (t : list event) :
  frame_files !! i = Some img_path ->
  Captioner.body_outcome w d img_path = Raises e ->
  exists frame_descriptions,
    fst (Driver.analyze_frames w d frame_files t) = Returns frame_descriptions
    /\ length frame_descriptions = length frame_files
    /\ frame_descriptions !! i = Some (lit "Description failed: " ++ exn_str e).
Proof.
  intros Hi He. rewrite analyze_frames_run.
  destruct frame_files as [|p files]; [discriminate|].
  eexists; split; [reflexivity|]. split; [apply length_map|].
  rewrite list_lookup_fmap, Hi. cbn. unfold Captioner.caption. now rewrite He.
Qed.

Lemma caption_failure_is_recorded_witness :
  exists frame_descriptions,
    fst (Driver.analyze_frames (Fake.world 150 [1%N]) Fake.frames3 Fake.files3 [])
      = Returns frame_descriptions
    /\ length frame_descriptions = length Fake.files3
    /\ frame_descriptions !! 1%nat
       = Some (lit "Description failed: "
                 ++ exn_str (RuntimeError "CUDA out of memory")).
Proof.
  apply (caption_failure_is_recorded (Fake.world 150 [1%N]) Fake.frames3
           Fake.files3 1 (lit "frames/frame_0001.jpg")
           (RuntimeError "CUDA out of memory") []);
    vm_compute; reflexivity.
Defined.

(** C4: the driver raises only on an empty list of frames; otherwise it
    returns one description per frame, the one at index [i] being the
    caption of the frame at index [i]. *)
Theorem captions_aligned (w : World) (d : gmap str Image)
    (frame_files : list str) (t : list event) :
  match fst (Driver.analyze_frames w d frame_files t) with
  | Returns frame_descriptions =>
      length frame_descriptions = length frame_files
      /\ forall i : nat,
           frame_descriptions !! i = Captioner.caption w d <$> frame_files !! i
  | Raises e =>
      frame_files = [] /\ e = Driver.EmptyAnalysis
  end.
Proof.
  rewrite analyze_frames_run. destruct frame_files as [|p files]; [now split|].
  cbn [fst]. split; [apply length_map|]. intros i. apply list_lookup_fmap.
Qed.

(** The captioner raises for frame index 1 of 3: the run of all cells
    completes, and the report has three entries, the second one the
    sentinel. *)
Example run_with_one_bad_frame :
  exists pre post,
    fst (Notebook.run (Fake.world 150 [1%N]))
    = Returns (pre
        ++ nl ++ lit "[1] @ 00:00" ++ nl ++ lit "desc-0" ++ nl
        ++ nl ++ lit "[2] @ 00:02" ++ nl
        ++ lit "Description failed: CUDA out of memory" ++ nl
        ++ nl ++ lit "[3] @ 00:04" ++ nl ++ lit "desc-2" ++ nl
        ++ post).
Proof.
  exists (Report.header (Fake.world 150 [1%N])
            {| audio := Some [0; 1; 0]; duration := float_of_int 5 |}
            [[]; []; []]
          ++ lit "- First frame: desc-0..." ++ nl
          ++ lit "- Last frame: desc-2..." ++ nl ++ nl
          ++ lit "=== DETAILED FRAME DESCRIPTIONS ===" ++ nl),
         (nl ++ nl ++ lit "=== AUDIO TRANSCRIPT ===" ++ nl ++ lit "hello world").
  vm_compute. reflexivity.
Qed.

(* ===================================================================== *)
(** * Step 6: the report *)
(* ===================================================================== *)

Section Assembling.

(** The loop appends the entries in the order of the list. *)
Lemma entries_loop_spec descs : forall i report,
  Report.entries_loop (Z.of_nat i) descs report
  = report ++ concat (imap (fun k desc => Report.entry (Z.of_nat (i + k)) desc) descs).
Proof.
  induction descs as [|desc descs IH]; intros i report; cbn [Report.entries_loop].
  - cbn. now rewrite app_nil_r.
  - replace (Z.of_nat i + 1) with (Z.of_nat (S i)) by lia.
    rewrite IH. cbn [imap concat]. rewrite <- app_assoc, Nat.add_0_r.
    do 2 f_equal. f_equal. apply imap_ext. intros k x _.
    unfold compose. f_equal. lia.
Qed.

Lemma timestamps_increasing n : forall i,
  StronglySorted Z.lt (map (fun k => Report.timestamp (Z.of_nat k)) (seq i n)).
Proof.
  induction n as [|n IH]; intros i; cbn [seq map]; constructor; [apply IH|].
  apply Forall_forall. intros x [k [-> Hk]]%list_elem_of_fmap.
  apply elem_of_seq in Hk. unfold Report.timestamp. lia.
Qed.

End Assembling.

(** C5: three captions ["desc-0"], ["desc-1"], ["desc-2"] and the
    transcript ["hello world"] give a report whose entries are tagged
    [@ 00:00], [@ 00:02], [@ 00:04] in that order and whose last section is
    the transcript; these are the captions and the transcript of the run
    with the fakes; the tag of index [i] is [i * 2 / 60] and
    [i * 2 mod 60], two digits each. *)
Theorem report_round_trip (w : World) (video : VideoFileClip) :
  let captions := [lit "desc-0"; lit "desc-1"; lit "desc-2"] in
  Report.report_text w video captions (lit "hello world")
  = Report.header w video captions ++ Report.key_observations captions
    ++ lit "=== DETAILED FRAME DESCRIPTIONS ===" ++ nl
    ++ nl ++ lit "[1] @ 00:00" ++ nl ++ lit "desc-0" ++ nl
    ++ nl ++ lit "[2] @ 00:02" ++ nl ++ lit "desc-1" ++ nl
    ++ nl ++ lit "[3] @ 00:04" ++ nl ++ lit "desc-2" ++ nl
    ++ nl ++ nl ++ lit "=== AUDIO TRANSCRIPT ===" ++ nl ++ lit "hello world"
  /\ fst (Notebook.run (Fake.world 150 []))
     = Returns (Report.report_text (Fake.world 150 [])
                  {| audio := Some [0; 1; 0]; duration := float_of_int 5 |}
                  captions (lit "hello world"))
  /\ forall i, Report.mmss i
       = format_0d 2 (i * 2 / 60) ++ lit ":" ++ format_0d 2 ((i * 2) mod 60).
Proof.
  intros captions. split; [|split].
  - unfold Report.report_text, captions. cbn [Report.entries_loop].
    change (Report.entry 0 (lit "desc-0"))
      with (nl ++ lit "[1] @ 00:00" ++ nl ++ lit "desc-0" ++ nl).
    change (Report.entry (0 + 1) (lit "desc-1"))
      with (nl ++ lit "[2] @ 00:02" ++ nl ++ lit "desc-1" ++ nl).
    change (Report.entry (0 + 1 + 1) (lit "desc-2"))
      with (nl ++ lit "[3] @ 00:04" ++ nl ++ lit "desc-2" ++ nl).
    now rewrite <- !app_assoc.
  - vm_compute. reflexivity.
  - reflexivity.
Qed.

(* ===================================================================== *)
(** * The run of all cells: fatal failures *)
(* ===================================================================== *)

Section Run.

Import Sampler.

(** What a returning Step 2 has done. *)
Lemma step2_inv (order : dir_order) stale cap r :
  step2 order stale cap = Returns r ->
  exists s nums,
    frame_interval (CAP_PROP_FPS cap) = Returns s /\ s <> 0
    /\ range (total_frames r) s = Returns nums
    /\ final r = LoopState (Z.of_nat (length (decoded cap nums)))
                   (write_from ∅ 0 (decoded cap nums))
                   (log_from 0 (decoded cap nums)).
Proof.
  unfold step2. destruct (isOpened cap); [|discriminate]. cbn [negb].
  destruct (frame_interval (CAP_PROP_FPS cap)) as [s|]; [|discriminate].
  cbn [bind].
  destruct (int_of (PyFloat (CAP_PROP_FRAME_COUNT cap))) as [total|];
    [|discriminate].
  cbn [bind]. destruct (range total s) as [nums|] eqn:Hr; [|discriminate].
  cbn [bind]. intros [= <-]. exists s, nums. cbn [total_frames final].
  rewrite loop_spec, clear_frames_empty. repeat split; try reflexivity; auto.
  intros ->. discriminate.
Qed.

(** Step 2 returns only with a step of at least 1. *)
Lemma step2_needs_positive_step (order : dir_order) stale cap r :
  float_valid (CAP_PROP_FPS cap) = true ->
  step2 order stale cap = Returns r ->
  exists s, frame_interval (CAP_PROP_FPS cap) = Returns s /\ 1 <= s.
Proof.
  intros Hv (s & nums & Hs & Hne & _)%step2_inv. exists s. split; [exact Hs|].
  pose proof (frame_interval_nonneg _ _ Hv Hs). lia.
Qed.

(** No frame saved: the folder is empty and so is the list of files. *)
Lemma no_frame_no_file (w : World) stale cap r :
  step2 (os_order w) stale cap = Returns r ->
  saved_count (final r) = 0 ->
  Driver.frame_files w (frames (final r)) = [].
Proof.
  intros (s & nums & _ & _ & _ & ->)%step2_inv. cbn [saved_count frames].
  intros Hn. destruct (decoded cap nums); [|discriminate].
  cbn [write_from]. unfold Driver.frame_files, Driver.glob_jpg, listdir.
  rewrite dom_empty_L, elements_empty.
  pose proof (order_perm (os_order w) []) as Hp.
  apply Permutation_nil_r in Hp. rewrite Hp. reflexivity.
Qed.

Lemma step3_trace (w : World) t :
  existsb writes_report t = false ->
  existsb writes_report (snd (Audio.step3 w t)) = false.
Proof.
  intros Ht. unfold Audio.step3, Audio.extract_audio, try_except, bindM, lift,
    emit, raise, ret.
  destruct (open_clip w) as [video|]; [|exact Ht].
  destruct (audio video) as [samples|]; [|exact Ht].
  destruct (write_audiofile w samples), (whisper_load_model w),
    (whisper_transcribe w); cbn [snd];
    rewrite ?existsb_app, ?Ht; reflexivity.
Qed.

(** With no frame saved the run ends in a failure, whichever cell
    raises first, and the report is never written. *)
Lemma zero_frames_never_reports (w : World) r :
  step2 (os_order w) (stale_frames w) (vidcap w) = Returns r ->
  saved_count (final r) = 0 ->
  exists e, fst (Notebook.run w) = Raises e
    /\ existsb writes_report (snd (Notebook.run w)) = false.
Proof.
  intros H2 H0. pose proof (no_frame_no_file w _ _ _ H2 H0) as Hf.
  pose proof (step3_trace w [] eq_refl) as H3.
  unfold Notebook.run, Notebook.run_all, bindM, lift. rewrite H2.
  destruct (Audio.step3 w []) as [[[video transcript]|e3] t3]; cbn [snd] in H3.
  - unfold Captioner.step4, bindM, emit, lift.
    destruct (phi_from_pretrained w) as [[]|e4].
    + unfold Driver.step5. rewrite Hf. cbn.
      eexists; split; [reflexivity|]. now rewrite existsb_app, H3.
    + cbn. eexists; split; [reflexivity|]. now rewrite existsb_app, H3.
  - cbn. eexists; split; [reflexivity|exact H3].
Qed.

End Run.

(** C7: when Step 2 returns without a saved frame, the cell of Step 5
    raises [FileNotFoundError("No frames found for analysis")] whenever it
    is run; the run of all cells ends in that failure, or in the failure
    of a cell that comes before Step 5 (audio, transcription, model
    loading) when one raises first, and the report of Step 6 is never
    written. *)
Theorem empty_analysis_stops_run (w : World) (r : Sampler.result) (t : list event) :
  Sampler.step2 (os_order w) (stale_frames w) (vidcap w) = Returns r ->
  Sampler.saved_count (Sampler.final r) = 0 ->
  Driver.step5 w (Sampler.frames (Sampler.final r)) t = (Raises Driver.EmptyAnalysis, t)
  /\ fst (Notebook.run w)
     = match fst (Audio.step3 w []), phi_from_pretrained w with
       | Raises e, _ => Raises e
       | Returns _, Raises e => Raises e
       | Returns _, Returns _ => Raises Driver.EmptyAnalysis
       end
  /\ existsb writes_report (snd (Notebook.run w)) = false.
Proof.
  intros H2 H0.
  pose proof (no_frame_no_file w _ _ _ H2 H0) as Hf.
  split; [unfold Driver.step5; now rewrite Hf|].
  split; [|now destruct (zero_frames_never_reports w r H2 H0) as (e & _ & Ht)].
  unfold Notebook.run, Notebook.run_all, bindM, lift. rewrite H2.
  destruct (Audio.step3 w []) as [[[video transcript]|e3] t3]; [|reflexivity].
  unfold Captioner.step4, bindM, emit, lift. cbn [fst].
  destruct (phi_from_pretrained w) as [[]|e4]; [|reflexivity].
  unfold Driver.step5. now rewrite Hf.
Qed.

(** A clip shorter than the interval still gives its first frame: 45
    frames at 30 fps are sampled at frame 0, and the run completes. *)
Example short_clip_has_one_frame :
  exists r, Sampler.step2 Fake.listing_order ∅ (Fake.capture 45) = Returns r
    /\ Sampler.saved_count (Sampler.final r) = 1
    /\ exists report, fst (Notebook.run (Fake.world 45 [])) = Returns report.
Proof. eexists. split; [vm_compute; reflexivity|]. split; [reflexivity|].
  eexists. vm_compute. reflexivity. Qed.

Lemma empty_analysis_stops_run_witness :
  Driver.step5 (Fake.world 0 []) ∅ [EvPhiLoad] = (Raises Driver.EmptyAnalysis, [EvPhiLoad])
  /\ fst (Notebook.run (Fake.world 0 [])) = Raises Driver.EmptyAnalysis
  /\ existsb writes_report (snd (Notebook.run (Fake.world 0 []))) = false.
Proof.
  apply (empty_analysis_stops_run (Fake.world 0 [])
           (Sampler.Result 0 (Sampler.LoopState 0 ∅ [])) [EvPhiLoad]);
    vm_compute; reflexivity.
Defined.

(** C8: when the clip has no audio stream, Step 3 raises the failure of
    [video.audio.write_audiofile] on [None] without loading or calling the
    transcriber, and the run of all cells ends there (or already in
    Step 2), with no call to the transcriber in its trace. *)
Theorem no_audio_track_is_fatal (w : World) (video : VideoFileClip) (t : list event) :
  open_clip w = Returns video ->
  audio video = None ->
  Audio.step3 w t = (Raises Audio.NoAudioTrack, t)
  /\ Notebook.run w
     = (match Sampler.step2 (os_order w) (stale_frames w) (vidcap w) with
        | Returns _ => Raises Audio.NoAudioTrack
        | Raises e => Raises e
        end, [])
  /\ existsb calls_transcriber (snd (Notebook.run w)) = false.
Proof.
  intros Ho Ha.
  assert (H3 : forall t', Audio.step3 w t' = (Raises Audio.NoAudioTrack, t')).
  { intros t'. unfold Audio.step3, Audio.extract_audio, try_except, bindM, lift, raise.
    now rewrite Ho, Ha. }
  assert (Hrun : Notebook.run w
     = (match Sampler.step2 (os_order w) (stale_frames w) (vidcap w) with
        | Returns _ => Raises Audio.NoAudioTrack
        | Raises e => Raises e
        end, [])).
  { unfold Notebook.run, Notebook.run_all, bindM, lift.
    destruct (Sampler.step2 _ _ _); [now rewrite H3|reflexivity]. }
  split; [apply H3|]. split; [exact Hrun|]. now rewrite Hrun.
Qed.

Lemma no_audio_track_is_fatal_witness :
  Audio.step3 (Fake.silent (Fake.world 150 [])) [EvPhiLoad]
    = (Raises Audio.NoAudioTrack, [EvPhiLoad])
  /\ Notebook.run (Fake.silent (Fake.world 150 []))
     = (match Sampler.step2 Fake.listing_order
                (stale_frames (Fake.world 150 [])) (Fake.capture 150) with
        | Returns _ => Raises Audio.NoAudioTrack
        | Raises e => Raises e
        end, [])
  /\ existsb calls_transcriber (snd (Notebook.run (Fake.silent (Fake.world 150 []))))
     = false.
Proof.
  apply (no_audio_track_is_fatal (Fake.silent (Fake.world 150 []))
           {| audio := None; duration := float_of_int 5 |} [EvPhiLoad]);
    reflexivity.
Defined.

(* ===================================================================== *)
(** * The order of strings *)
(* ===================================================================== *)

Section StrOrder.

Lemma str_compare_refl s : str_compare s s = Eq.
Proof. induction s as [|a s IH]; cbn; [reflexivity|]. now rewrite N.compare_refl. Qed.

Lemma str_compare_eq s : forall t, str_compare s t = Eq -> s = t.
Proof.
  induction s as [|a s IH]; intros [|b t]; cbn; try discriminate; [reflexivity|].
  destruct (N.compare_spec a b) as [->|?|?]; try discriminate.
  intros H. f_equal. now apply IH.
Qed.

Lemma str_compare_opp s : forall t, str_compare t s = CompOpp (str_compare s t).
Proof.
  induction s as [|a s IH]; intros [|b t]; cbn; try reflexivity.
  rewrite (N.compare_antisym a b).
  destruct (N.compare a b); cbn; auto.
Qed.

Lemma str_compare_lt_trans s : forall t u,
  str_compare s t = Lt -> str_compare t u = Lt -> str_compare s u = Lt.
Proof.
  induction s as [|a s IH]; intros [|b t] [|c u]; cbn; try discriminate;
    try reflexivity.
  destruct (N.compare_spec a b) as [->|Hab|Hab]; try discriminate.
  - destruct (N.compare c b) eqn:Hcb; rewrite (N.compare_antisym c b), Hcb; cbn;
      try discriminate; [apply IH|reflexivity].
  - intros _. destruct (N.compare_spec b c) as [->|Hbc|Hbc]; try discriminate.
    + intros _. now apply N.compare_lt_iff in Hab as ->.
    + intros _. assert (H : (a < c)%N) by lia. now apply N.compare_lt_iff in H as ->.
Qed.

#[local] Instance str_lt_trans : Transitive str_lt.
Proof.
  intros s t u. unfold str_lt, str_ltb.
  destruct (str_compare s t) eqn:H1; try discriminate.
  destruct (str_compare t u) eqn:H2; try discriminate.
  now rewrite (str_compare_lt_trans s t u H1 H2).
Qed.

Lemma str_lt_le s t : str_lt s t -> str_le s t.
Proof. unfold str_lt, str_le, str_ltb, str_leb. now destruct (str_compare s t). Qed.

Lemma str_lt_irrefl s : ~ str_lt s s.
Proof. unfold str_lt, str_ltb. now rewrite str_compare_refl. Qed.

Lemma str_le_inv s t : str_le s t -> s = t \/ str_lt s t.
Proof.
  unfold str_le, str_lt, str_leb, str_ltb.
  destruct (str_compare s t) eqn:H; try discriminate; [left|right]; auto.
  now apply str_compare_eq.
Qed.

#[local] Instance str_le_trans : Transitive str_le.
Proof.
  intros s t u [->|H1]%str_le_inv [->|H2]%str_le_inv;
    try (now apply str_lt_le).
  - unfold str_le, str_leb. now rewrite str_compare_refl.
  - apply str_lt_le. now transitivity t.
Qed.

#[local] Instance str_le_antisym : AntiSymm (=) str_le.
Proof.
  intros s t [->|H1]%str_le_inv [E|H2]%str_le_inv; auto.
  exfalso. apply (str_lt_irrefl s). now transitivity t.
Qed.

#[local] Instance str_le_total : Total str_le.
Proof.
  intros s t. unfold str_le, str_leb. rewrite (str_compare_opp s t).
  destruct (str_compare s t); cbn; auto.
Qed.

Lemma increasing_sorted l : increasing l = true -> StronglySorted str_lt l.
Proof.
  intros H. apply Sorted_StronglySorted; [apply _|].
  induction l as [|s l IH]; [constructor|].
  destruct l as [|t l]; [repeat constructor|].
  cbn [increasing] in H. apply andb_true_iff in H as [H1 H2].
  constructor; [apply IH, H2|constructor; exact H1].
Qed.

Lemma StronglySorted_lt_le l : StronglySorted str_lt l -> Sorted str_le l.
Proof.
  intros H. apply StronglySorted_Sorted.
  induction H as [|s l Hl IH Hs]; constructor; [exact IH|].
  eapply Forall_impl; [exact Hs|]. intros t. apply str_lt_le.
Qed.

Lemma StronglySorted_lt_NoDup l : StronglySorted str_lt l -> NoDup l.
Proof.
  induction 1 as [|s l Hl IH Hs]; constructor; [|exact IH].
  intros Hin. rewrite Forall_forall in Hs.
  now apply (str_lt_irrefl s), Hs.
Qed.

(** [sorted] returns the one sorted permutation of its argument. *)
Lemma sorted_unique l l' : Sorted str_le l' -> l' ≡ₚ l -> sorted l = l'.
Proof.
  intros Hs Hp. apply (Sorted_unique str_le); [apply Sorted_merge_sort, _|exact Hs|].
  unfold sorted. now rewrite merge_sort_Permutation.
Qed.

(** Sorting a permutation of an increasing list gives that list. *)
Lemma sorted_increasing l l' :
  StronglySorted str_lt l -> l' ≡ₚ l -> sorted l' = l.
Proof.
  intros Hl Hp. symmetry in Hp.
  apply sorted_unique; [now apply StronglySorted_lt_le|exact Hp].
Qed.

End StrOrder.

(* ===================================================================== *)
(** * Frame files: names, folder and sorted listing *)
(* ===================================================================== *)

Section FrameFiles.

Import Sampler.

(** The paths of the four-digit names are in increasing order. *)
Lemma four_digit_paths_increasing :
  increasing (map in_output_folder four_digit_names) = true.
Proof. vm_compute. reflexivity. Qed.

Lemma count_from_seq n : forall k,
  count_from n k = map (fun i => k + Z.of_nat i) (seq 0 n).
Proof.
  induction n as [|n IH]; intros k; [reflexivity|].
  cbn [count_from seq map]. rewrite IH, <- seq_shift, map_map.
  f_equal; [lia|]. apply map_ext. intros i. lia.
Qed.

Lemma four_digit_names_seq :
  four_digit_names = map name_of (seq 0 (Z.to_nat 10000)).
Proof.
  unfold four_digit_names. rewrite count_from_seq, map_map. reflexivity.
Qed.

Lemma strip_prefix_app p : forall s, strip_prefix p (p ++ s) = Some s.
Proof.
  induction p as [|a p IH]; intros s; [now destruct s|].
  cbn. now rewrite N.eqb_refl.
Qed.

(** Every frame name matches [*.jpg]. *)
Lemma frame_name_matches z : Driver.matches_jpg (frame_name z) = true.
Proof.
  unfold Driver.matches_jpg, endswith, startswith, frame_name.
  rewrite !rev_app_distr, <- app_assoc.
  now rewrite strip_prefix_app.
Qed.

Lemma names_prefix n :
  (n <= Z.to_nat 10000)%nat -> map name_of (seq 0 n) = take n four_digit_names.
Proof.
  intros Hn. rewrite four_digit_names_seq.
  change (take n (map name_of (seq 0 (Z.to_nat 10000))))
    with (take n (name_of <$> seq 0 (Z.to_nat 10000))).
  rewrite <- fmap_take, take_seq. do 2 f_equal. lia.
Qed.

Lemma four_digit_paths_sorted :
  StronglySorted str_lt (map in_output_folder four_digit_names).
Proof. apply increasing_sorted, four_digit_paths_increasing. Qed.

Lemma paths_sorted n :
  (n <= Z.to_nat 10000)%nat ->
  StronglySorted str_lt (map in_output_folder (map name_of (seq 0 n))).
Proof.
  intros Hn. rewrite names_prefix by exact Hn.
  change (map in_output_folder (take n four_digit_names))
    with (in_output_folder <$> take n four_digit_names).
  rewrite fmap_take.
  apply (StronglySorted_app_1_l _ _ (drop n (in_output_folder <$> four_digit_names))).
  rewrite take_drop. apply four_digit_paths_sorted.
Qed.

Lemma four_digit_names_NoDup : NoDup four_digit_names.
Proof.
  apply (NoDup_fmap_1 in_output_folder), StronglySorted_lt_NoDup,
    four_digit_paths_sorted.
Qed.



Lemma write_from_other imgs : forall (d : gmap str Image) k x,
  x ∉ map name_of (seq k (length imgs)) ->
  write_from d (Z.of_nat k) imgs !! x = d !! x.
Proof.
  induction imgs as [|image imgs IH]; intros d k x Hx; [reflexivity|].
  cbn [write_from length seq map] in *.
  replace (Z.of_nat k + 1) with (Z.of_nat (S k)) by lia.
  rewrite IH by (intros H; apply Hx; now right).
  apply lookup_insert_ne. intros E. apply Hx. subst x. now left.
Qed.


Lemma write_from_dom imgs : forall (d : gmap str Image) k,
  dom (write_from d (Z.of_nat k) imgs)
  = dom d ∪ list_to_set (map name_of (seq k (length imgs))).
Proof.
  induction imgs as [|image imgs IH]; intros d k; cbn [write_from length seq map].
  - cbn. now rewrite (right_id_L ∅ (∪)).
  - replace (Z.of_nat k + 1) with (Z.of_nat (S k)) by lia.
    rewrite IH, dom_insert_L, list_to_set_cons.
    rewrite (comm_L (∪) {[frame_name (Z.of_nat k)]} (dom d)).
    now rewrite (assoc_L (∪)).
Qed.

Lemma log_from_paths imgs : forall k,
  map fst (log_from (Z.of_nat k) imgs)
  = map in_output_folder (map name_of (seq k (length imgs))).
Proof.
  induction imgs as [|image imgs IH]; intros k; [reflexivity|].
  cbn [log_from length seq map fst].
  replace (Z.of_nat k + 1) with (Z.of_nat (S k)) by lia.
  now rewrite IH.
Qed.

Lemma log_from_lookup imgs : forall k j path image,
  log_from (Z.of_nat k) imgs !! j = Some (path, image) ->
  path = in_output_folder (name_of (k + j)) /\ imgs !! j = Some image.
Proof.
  induction imgs as [|image0 imgs IH]; intros k j path image; [discriminate|].
  cbn [log_from]. replace (Z.of_nat k + 1) with (Z.of_nat (S k)) by lia.
  destruct j as [|j]; cbn.
  - intros [= <- <-]. now rewrite Nat.add_0_r.
  - intros H. apply IH in H as [-> H]. split; [|exact H].
    now replace (S k + j)%nat with (k + S j)%nat by lia.
Qed.

Lemma filter_all {A} (P : A -> Prop) `{forall x, Decision (P x)} (l : list A) :
  Forall P l -> filter P l = l.
Proof.
  induction 1 as [|x l Hx Hl IH]; [reflexivity|].
  rewrite filter_cons_True by exact Hx. now rewrite IH.
Qed.

(** The listing of a folder written by the loop, whatever the order
    of the OS: a permutation of the paths written. *)
Lemma glob_written (order : dir_order) imgs :
  (length imgs <= Z.to_nat 10000)%nat ->
  Driver.glob_jpg order (write_from ∅ 0 imgs)
  ≡ₚ map in_output_folder (map name_of (seq 0 (length imgs))).
Proof.
  intros Hn. unfold Driver.glob_jpg, listdir.
  apply Permutation_map.
  rewrite (order_perm order).
  rewrite (write_from_dom imgs ∅ 0), dom_empty_L, (left_id_L ∅ (∪)).
  assert (Hnd : NoDup (map name_of (seq 0 (length imgs)))).
  { rewrite names_prefix by exact Hn. eapply sublist_NoDup; [apply four_digit_names_NoDup|apply sublist_take]. }
  rewrite (elements_list_to_set _ Hnd).
  rewrite filter_all; [reflexivity|].
  apply Forall_forall. intros x (i & -> & Hi)%list_elem_of_fmap.
  apply frame_name_matches.
Qed.

Lemma image_open_written (d : gmap str Image) f image :
  d !! f = Some image ->
  Captioner.image_open d (in_output_folder f) = Returns image.
Proof.
  intros H. unfold Captioner.image_open, in_output_folder.
  rewrite app_assoc, strip_prefix_app. now rewrite H.
Qed.

End FrameFiles.

(** A name with five digits is out of place: the frame saved at index
    10000 sorts before the one saved at index 1001. *)
Example five_digit_name_out_of_order :
  sorted (map in_output_folder
            [Sampler.name_of 1000; Sampler.name_of 1001; Sampler.name_of (Z.to_nat 10000)])
  = map in_output_folder
      [Sampler.name_of 1000; Sampler.name_of (Z.to_nat 10000); Sampler.name_of 1001].
Proof. vm_compute. reflexivity. Qed.



(* ===================================================================== *)
(** * Step 2: further properties of the sampling loop *)
(* ===================================================================== *)

Section SamplingMore.

Import Sampler.

Lemma range_from_lookup step stop fuel : forall cur i x,
  range_from false fuel cur stop step !! i = Some x ->
  x = cur + Z.of_nat i * step.
Proof.
  induction fuel as [|fuel IH]; intros cur i x; cbn [range_from]; [discriminate|].
  destruct (cur <? stop); [|discriminate].
  destruct i as [|i]; cbn.
  - intros [= <-]. lia.
  - intros H. apply IH in H. lia.
Qed.

Lemma range_from_sorted step stop fuel : forall cur,
  1 <= step -> StronglySorted Z.lt (range_from false fuel cur stop step).
Proof.
  induction fuel as [|fuel IH]; intros cur Hs; cbn [range_from]; [constructor|].
  destruct (cur <? stop); [|constructor].
  constructor; [now apply IH|]. apply Forall_forall. intros x Hx.
  apply list_elem_of_In, range_from_bounds in Hx; lia.
Qed.

Lemma kept_sublist cap nums (P : Z -> Prop) :
  Forall P nums -> Forall P (View.kept cap nums).
Proof.
  induction 1 as [|n nums Hn Hl IH]; cbn [View.kept]; [constructor|].
  destruct (read_at cap n); [constructor|]; assumption.
Qed.

Lemma kept_sorted cap nums :
  StronglySorted Z.lt nums -> StronglySorted Z.lt (View.kept cap nums).
Proof.
  induction 1 as [|n nums Hs IH Hn]; cbn [View.kept]; [constructor|].
  destruct (read_at cap n); [|exact IH].
  constructor; [exact IH|now apply kept_sublist].
Qed.

Lemma kept_decoded cap nums :
  Forall2 (fun n image => read_at cap n = Some image)
    (View.kept cap nums) (decoded cap nums).
Proof.
  induction nums as [|n nums IH]; cbn [View.kept decoded]; [constructor|].
  destruct (read_at cap n) eqn:E; [constructor|]; assumption.
Qed.

Lemma kept_length cap nums : (length (View.kept cap nums) <= length nums)%nat.
Proof.
  induction nums as [|n nums IH]; cbn [View.kept length]; [lia|].
  destruct (read_at cap n); cbn [length]; lia.
Qed.

Lemma log_from_snd imgs : forall n, map snd (log_from n imgs) = imgs.
Proof.
  induction imgs as [|image imgs IH]; intros n; cbn; [reflexivity|].
  now rewrite IH.
Qed.

(** A returning Step 2, with the step and the frame numbers it went
    through. *)
Lemma step2_inv_valid (order : dir_order) stale cap r :
  float_valid (CAP_PROP_FPS cap) = true ->
  step2 order stale cap = Returns r ->
  exists s nums,
    frame_interval (CAP_PROP_FPS cap) = Returns s /\ 1 <= s
    /\ range (total_frames r) s = Returns nums
    /\ nums = range_from false (Z.abs_nat (total_frames r)) 0 (total_frames r) s
    /\ final r = LoopState (Z.of_nat (length (decoded cap nums)))
                   (write_from ∅ 0 (decoded cap nums))
                   (log_from 0 (decoded cap nums)).
Proof.
  intros Hv H. destruct (step2_inv _ _ _ _ H) as (s & nums & Hs & Hne & Hr & Hf).
  pose proof (frame_interval_nonneg _ _ Hv Hs) as Hpos.
  exists s, nums. repeat split; try assumption; try lia.
  unfold range in Hr. destruct (s =? 0); [discriminate|].
  destruct (Z.ltb_spec s 0); [lia|]. now injection Hr as <-.
Qed.

End SamplingMore.

(** X1: Step 2 starts from an empty folder: what it returns does not
    depend on the files the folder held before, nor on the order in which
    the OS lists them. *)
Theorem step2_purges_stale (order order' : dir_order) (stale : gmap str Image)
    (cap : Sampler.VideoCapture) :
  Sampler.step2 order stale cap = Sampler.step2 order' ∅ cap.
Proof.
  unfold Sampler.step2. now rewrite !clear_frames_empty.
Qed.

(** X2: the frames are saved in ascending order of source frame number,
    also when some frames do not decode: the saved images are those of a
    strictly increasing list of frame numbers, each a multiple of the step
    below the frame count, and the file names carry the indices 0, 1, 2,
    ... without a gap. *)
Theorem saved_frames_follow_source_order (order : dir_order)
    (stale : gmap str Image) (cap : Sampler.VideoCapture) (r : Sampler.result) :
  float_valid (Sampler.CAP_PROP_FPS cap) = true ->
  Sampler.step2 order stale cap = Returns r ->
  exists s kept,
    Sampler.frame_interval (Sampler.CAP_PROP_FPS cap) = Returns s
    /\ StronglySorted Z.lt kept
    /\ Forall (fun n => 0 <= n < Sampler.total_frames r /\ (s | n)) kept
    /\ Forall2 (fun n entry => Sampler.read_at cap n = Some (snd entry))
         kept (Sampler.imwrite_log (Sampler.final r))
    /\ map fst (Sampler.imwrite_log (Sampler.final r))
       = map (fun i => in_output_folder (Sampler.name_of i)) (seq 0 (length kept))
    /\ Sampler.saved_count (Sampler.final r) = Z.of_nat (length kept).
Proof.
  intros Hv H.
  destruct (step2_inv_valid _ _ _ _ Hv H) as (s & nums & Hs & Hpos & _ & Hn & ->).
  exists s, (View.kept cap nums).
  cbn [Sampler.imwrite_log Sampler.saved_count].
  pose proof (kept_decoded cap nums) as Hk.
  assert (Hlen : length (Sampler.decoded cap nums) = length (View.kept cap nums))
    by (symmetry; eapply Forall2_length, Hk).
  split; [exact Hs|]. split; [|split; [|split; [|split]]].
  - apply kept_sorted. subst nums. now apply range_from_sorted.
  - apply kept_sublist, Forall_forall. intros n Hin.
    apply list_elem_of_lookup in Hin as [i Hi]. subst nums.
    pose proof (range_from_lookup _ _ _ _ _ _ Hi) as ->.
    apply list_elem_of_lookup_2, list_elem_of_In, range_from_bounds in Hi; [|lia].
    split; [lia|]. exists (Z.of_nat i). lia.
  - rewrite <- (log_from_snd (Sampler.decoded cap nums) 0) in Hk.
    apply Forall2_fmap_r in Hk. exact Hk.
  - pose proof (log_from_paths (Sampler.decoded cap nums) 0) as Hp.
    change (Z.of_nat 0) with 0 in Hp. rewrite Hp, Hlen, map_map. reflexivity.
  - now rewrite Hlen.
Qed.

Lemma saved_frames_follow_source_order_witness :
  let r := Sampler.Result 150
             (Sampler.LoopState 3 Fake.frames3
                (Sampler.log_from 0 [[0%N]; [1%N]; [2%N]])) in
  exists s kept,
    Sampler.frame_interval (Sampler.CAP_PROP_FPS (Fake.capture 150)) = Returns s
    /\ StronglySorted Z.lt kept
    /\ Forall (fun n => 0 <= n < Sampler.total_frames r /\ (s | n)) kept
    /\ Forall2 (fun n entry => Sampler.read_at (Fake.capture 150) n = Some (snd entry))
         kept (Sampler.imwrite_log (Sampler.final r))
    /\ map fst (Sampler.imwrite_log (Sampler.final r))
       = map (fun i => in_output_folder (Sampler.name_of i)) (seq 0 (length kept))
    /\ Sampler.saved_count (Sampler.final r) = Z.of_nat (length kept).
Proof.
  intros r.
  apply (saved_frames_follow_source_order Fake.listing_order ∅ (Fake.capture 150) r);
    vm_compute; reflexivity.
Defined.

Section SamplingAll.

Import Sampler.

Lemma kept_all cap nums :
  (forall n, In n nums -> is_Some (read_at cap n)) -> View.kept cap nums = nums.
Proof.
  induction nums as [|n nums IH]; intros H; [reflexivity|].
  cbn [View.kept]. destruct (H n (or_introl eq_refl)) as [image ->].
  f_equal. apply IH. intros; apply H; now right.
Qed.

End SamplingAll.

(** X3: when every frame of the source decodes, the frame saved at index
    [i] is the source frame number [i * step], written under the name of
    index [i]. *)
Theorem saved_frame_is_source_frame (order : dir_order) (stale : gmap str Image)
    (cap : Sampler.VideoCapture) (r : Sampler.result)
    (i : nat) (path : str) (image : Image) :
  float_valid (Sampler.CAP_PROP_FPS cap) = true ->
  Sampler.step2 order stale cap = Returns r ->
  (forall n, 0 <= n < Sampler.total_frames r -> is_Some (Sampler.read_at cap n)) ->
  Sampler.imwrite_log (Sampler.final r) !! i = Some (path, image) ->
  exists s,
    Sampler.frame_interval (Sampler.CAP_PROP_FPS cap) = Returns s
    /\ path = in_output_folder (Sampler.name_of i)
    /\ Sampler.read_at cap (Z.of_nat i * s) = Some image.
Proof.
  intros Hv H Hdec Hi.
  destruct (step2_inv_valid _ _ _ _ Hv H) as (s & nums & Hs & Hpos & _ & Hn & Hf).
  rewrite Hf in Hi. cbn [Sampler.imwrite_log] in Hi.
  exists s. split; [exact Hs|].
  apply (log_from_lookup _ 0) in Hi as [-> Hi]. split; [reflexivity|].
  pose proof (kept_decoded cap nums) as Hk.
  rewrite kept_all in Hk.
  2:{ intros n Hin. apply Hdec. subst nums. apply range_from_bounds in Hin; lia. }
  destruct (Forall2_lookup_r _ _ _ _ _ Hk Hi) as (n & Hni & Hread).
  subst nums. apply range_from_lookup in Hni. subst n.
  now rewrite Z.add_0_l in Hread.
Qed.

Lemma saved_frame_is_source_frame_witness :
  exists s,
    Sampler.frame_interval (Sampler.CAP_PROP_FPS (Fake.capture 150)) = Returns s
    /\ lit "frames/frame_0002.jpg" = in_output_folder (Sampler.name_of 2)
    /\ Sampler.read_at (Fake.capture 150) (Z.of_nat 2 * s) = Some [2%N].
Proof.
  apply (saved_frame_is_source_frame Fake.listing_order ∅ (Fake.capture 150)
           (Sampler.Result 150
              (Sampler.LoopState 3 Fake.frames3
                 (Sampler.log_from 0 [[0%N]; [1%N]; [2%N]])))
           2 (lit "frames/frame_0002.jpg") [2%N]);
    [vm_compute; reflexivity | vm_compute; reflexivity | | vm_compute; reflexivity].
  intros n _. simpl. eexists. reflexivity.
Defined.

(** X4: frames that do not decode are skipped without an error and only
    lower the count: whenever Step 2 returns, the number of frames saved
    is between 0 and [ceil(total_frames / step)] (0 when the frame count is
    not positive), and one file was written per frame saved. *)
Theorem saved_count_bounds (order : dir_order) (stale : gmap str Image)
    (cap : Sampler.VideoCapture) (r : Sampler.result) :
  float_valid (Sampler.CAP_PROP_FPS cap) = true ->
  Sampler.step2 order stale cap = Returns r ->
  exists s,
    Sampler.frame_interval (Sampler.CAP_PROP_FPS cap) = Returns s
    /\ 0 <= Sampler.saved_count (Sampler.final r)
         <= Z.max 0 (Spec.ceil_div (Sampler.total_frames r) s)
    /\ Z.of_nat (length (Sampler.imwrite_log (Sampler.final r)))
       = Sampler.saved_count (Sampler.final r).
Proof.
  intros Hv H.
  destruct (step2_inv_valid _ _ _ _ Hv H) as (s & nums & Hs & Hpos & Hr & _ & ->).
  exists s. split; [exact Hs|].
  cbn [Sampler.saved_count Sampler.imwrite_log]. rewrite log_from_length.
  split; [|reflexivity].
  destruct (range_positive_step (Sampler.total_frames r) s Hpos)
    as (nums' & Hr' & Hlen & _).
  rewrite Hr in Hr'. injection Hr' as <-.
  pose proof (kept_length cap nums) as Hk.
  pose proof (Forall2_length _ _ _ (kept_decoded cap nums)) as Hd.
  lia.
Qed.

Lemma saved_count_bounds_witness :
  let cap := {| Sampler.isOpened := true;
                Sampler.CAP_PROP_FPS := float_of_int 30;
                Sampler.CAP_PROP_FRAME_COUNT := float_of_int 150;
                Sampler.read_at := fun n => if n =? 60 then None else Some [] |} in
  let r := Sampler.Result 150
             (Sampler.LoopState 2 (Sampler.write_from ∅ 0 [[]; []])
                (Sampler.log_from 0 [[]; []])) in
  exists s,
    Sampler.frame_interval (Sampler.CAP_PROP_FPS cap) = Returns s
    /\ 0 <= Sampler.saved_count (Sampler.final r)
         <= Z.max 0 (Spec.ceil_div (Sampler.total_frames r) s)
    /\ Z.of_nat (length (Sampler.imwrite_log (Sampler.final r)))
       = Sampler.saved_count (Sampler.final r).
Proof.
  intros cap r.
  apply (saved_count_bounds Fake.listing_order ∅ cap r); vm_compute; reflexivity.
Defined.

(* ===================================================================== *)
(** * Frame names and sequence indices *)
(* ===================================================================== *)

Section Names.

Import Sampler.

Lemma uint_of_codes_string d :
  View.uint_of_codes (lit (NilEmpty.string_of_uint d)) = Some d.
Proof.
  induction d as [|d IH|d IH|d IH|d IH|d IH|d IH|d IH|d IH|d IH|d IH];
    [reflexivity|..]; cbn [NilEmpty.string_of_uint];
    unfold lit in *; cbn [list_ascii_of_string map View.uint_of_codes];
    rewrite IH; reflexivity.
Qed.

Lemma digits_value n :
  exists d, View.uint_of_codes (digits n) = Some d /\ N.of_uint d = n
            /\ digits n <> [].
Proof.
  unfold digits. pose proof (Unsigned.of_to n) as Hn.
  destruct (N.to_uint n) as [|d|d|d|d|d|d|d|d|d|d] eqn:E;
    try (eexists; split; [apply uint_of_codes_string|]; split;
         [exact Hn|discriminate]).
  exists (Decimal.D0 Decimal.Nil). repeat split; [|discriminate].
  now rewrite <- Hn.
Qed.

Lemma uint_of_codes_zeros k s d :
  View.uint_of_codes s = Some d ->
  exists d', View.uint_of_codes (replicate k 48%N ++ s) = Some d'
             /\ N.of_uint d' = N.of_uint d.
Proof.
  intros H. induction k as [|k (d' & Hd' & E)]; [now exists d|].
  exists (Decimal.D0 d'). cbn [replicate app View.uint_of_codes].
  now rewrite Hd'.
Qed.

(** Reading back what [{:0wd}] prints gives the number printed. *)
Lemma int_of_format_0d w z : 0 <= z -> View.int_of_digits (format_0d w z) = Some z.
Proof.
  intros Hz. unfold format_0d. destruct (Z.ltb_spec z 0); [lia|].
  cbn [app length]. destruct (digits_value (Z.abs_N z)) as (d & Hd & Hv & Hne).
  match goal with
  | |- context [replicate ?k _] =>
      destruct (uint_of_codes_zeros k _ _ Hd) as (d' & Hd' & E)
  end.
  destruct (replicate _ _ ++ digits (Z.abs_N z)) as [|c x] eqn:Happ.
  - apply app_eq_nil in Happ as [_ ?]. contradiction.
  - unfold View.int_of_digits. rewrite Hd', E, Hv. f_equal. lia.
Qed.

Lemma index_of_frame_name z : 0 <= z -> View.index_of_name (frame_name z) = Some z.
Proof.
  intros Hz. unfold View.index_of_name, frame_name.
  rewrite strip_prefix_app, rev_app_distr, strip_prefix_app, rev_involutive.
  now apply int_of_format_0d.
Qed.

Lemma name_of_inj_all i j : name_of i = name_of j -> i = j.
Proof.
  intros E. apply (f_equal View.index_of_name) in E.
  unfold name_of in E. rewrite !index_of_frame_name in E by lia.
  injection E. lia.
Qed.

Lemma write_from_lookup_all imgs : forall (d : gmap str Image) k j image,
  imgs !! j = Some image ->
  write_from d (Z.of_nat k) imgs !! name_of (k + j) = Some image.
Proof.
  induction imgs as [|image0 imgs IH]; intros d k j image Hj; [discriminate|].
  cbn [write_from]. replace (Z.of_nat k + 1) with (Z.of_nat (S k)) by lia.
  destruct j as [|j]; cbn in Hj.
  - injection Hj as ->. rewrite Nat.add_0_r, write_from_other.
    + apply lookup_insert_eq.
    + intros (i & E & Hi)%list_elem_of_fmap. apply elem_of_seq in Hi.
      apply name_of_inj_all in E. lia.
  - replace (k + S j)%nat with (S k + j)%nat by lia. now apply IH.
Qed.

Lemma names_NoDup k n : NoDup (map name_of (seq k n)).
Proof.
  apply (NoDup_fmap_2 (A:=nat)); [|apply NoDup_seq].
  intros i j. apply name_of_inj_all.
Qed.

End Names.

(* ===================================================================== *)
(** * Step 6: the time tags of the report, read back *)
(* ===================================================================== *)

Section Tags.

Lemma uint_of_codes_colon s : forall d rest,
  View.uint_of_codes s = Some d ->
  View.before_colon (s ++ 58%N :: rest) = s
  /\ View.after_colon (s ++ 58%N :: rest) = Some rest.
Proof.
  induction s as [|c s IH]; intros d rest H.
  - cbn. now split.
  - cbn [View.uint_of_codes] in H.
    destruct (View.uint_of_codes s) as [d'|] eqn:E; [|discriminate].
    destruct (IH d' rest eq_refl) as [Hb Ha].
    cbn [app View.before_colon View.after_colon].
    destruct (N.eqb_spec c 58) as [->|_]; [discriminate H|].
    now rewrite Hb, Ha.
Qed.

Lemma int_of_digits_codes s z :
  View.int_of_digits s = Some z -> exists d, View.uint_of_codes s = Some d.
Proof.
  unfold View.int_of_digits. destruct s as [|c s]; [discriminate|].
  destruct (View.uint_of_codes (c :: s)) as [d|]; [|discriminate].
  intros _. now exists d.
Qed.

(** The tag of index [i] reads back as [i * 2] seconds. *)
Lemma tag_seconds_mmss i : 0 <= i -> View.tag_seconds (Report.mmss i) = Some (i * 2).
Proof.
  intros Hi. unfold Report.mmss, Report.timestamp.
  assert (Hm : View.int_of_digits (format_0d 2 (i * 2 / 60)) = Some (i * 2 / 60))
    by (apply int_of_format_0d, Z.div_pos; lia).
  assert (Hs : View.int_of_digits (format_0d 2 ((i * 2) mod 60)) = Some ((i * 2) mod 60))
    by (apply int_of_format_0d, Z.mod_pos_bound; lia).
  destruct (int_of_digits_codes _ _ Hm) as [d Hd].
  change (lit ":" ++ format_0d 2 ((i * 2) mod 60))
    with (58%N :: format_0d 2 ((i * 2) mod 60)).
  destruct (uint_of_codes_colon _ d (format_0d 2 ((i * 2) mod 60)) Hd) as [Hb Ha].
  unfold View.tag_seconds. rewrite Hb, Ha, Hm, Hs. f_equal.
  pose proof (Z.div_mod (i * 2) 60). lia.
Qed.

End Tags.

(** C6: the report holds one entry per description, in index order;
    entry [i] is the text [\n[i+1] @ MM:SS\ndesc\n] with the description of
    index [i] and the tag of index [i]; that tag reads back as [i * 2]
    seconds, the timestamp of index [i] with the interval 2 of the code;
    and the tags read along the list are strictly increasing. *)
Theorem report_entries_in_order (w : World) (video : VideoFileClip)
    (frame_descriptions : list str) (transcript : str) :
  Report.report_text w video frame_descriptions transcript
  = (Report.header w video frame_descriptions
     ++ Report.key_observations frame_descriptions
     ++ lit "=== DETAILED FRAME DESCRIPTIONS ===" ++ nl)
    ++ concat (imap (fun i desc =>
                 nl ++ lit "[" ++ format_d (Z.of_nat i + 1) ++ lit "] @ "
                 ++ Report.mmss (Z.of_nat i) ++ nl ++ desc ++ nl)
               frame_descriptions)
    ++ (nl ++ nl ++ lit "=== AUDIO TRANSCRIPT ===" ++ nl) ++ transcript
  /\ (forall i : nat,
        View.tag_seconds (Report.mmss (Z.of_nat i))
        = Some (Report.timestamp (Z.of_nat i))
        /\ Report.timestamp (Z.of_nat i) = Z.of_nat i * 2)
  /\ (forall i k : nat,
        match View.tag_seconds (Report.mmss (Z.of_nat i)),
              View.tag_seconds (Report.mmss (Z.of_nat (i + S k))) with
        | Some a, Some b => a < b
        | _, _ => False
        end).
Proof.
  split; [|split].
  - unfold Report.report_text.
    rewrite (entries_loop_spec frame_descriptions 0). cbn [Nat.add].
    now rewrite <- !app_assoc.
  - intros i. split; [|reflexivity]. apply tag_seconds_mmss. lia.
  - intros i k. rewrite !tag_seconds_mmss by lia. lia.
Qed.

(** X5: a frame name carries its sequence index: reading back the digits
    between ["frame_"] and [".jpg"] gives the index the frame was saved
    under, whatever the number of digits; so two indices never share a
    file name. *)
Theorem frame_name_round_trip (saved_count saved_count' : Z) :
  0 <= saved_count -> 0 <= saved_count' ->
  View.index_of_name (Sampler.frame_name saved_count) = Some saved_count
  /\ (Sampler.frame_name saved_count = Sampler.frame_name saved_count' ->
      saved_count = saved_count').
Proof.
  intros H H'. split; [now apply index_of_frame_name|].
  intros E. apply (f_equal View.index_of_name) in E.
  rewrite !index_of_frame_name in E by assumption. now injection E.
Qed.

Lemma frame_name_round_trip_witness :
  View.index_of_name (Sampler.frame_name 12345) = Some 12345
  /\ (Sampler.frame_name 12345 = Sampler.frame_name 7 -> 12345 = 7).
Proof. apply (frame_name_round_trip 12345 7); lia. Defined.

(** X6: no frame is overwritten or lost, for any number of frames: after
    a returning Step 2 the folder holds exactly one file per saved frame,
    and the file of each index holds the image written under it. *)
Theorem every_saved_frame_is_kept (order : dir_order) (stale : gmap str Image)
    (cap : Sampler.VideoCapture) (r : Sampler.result) :
  Sampler.step2 order stale cap = Returns r ->
  map (Captioner.image_open (Sampler.frames (Sampler.final r)))
      (map fst (Sampler.imwrite_log (Sampler.final r)))
    = map (fun entry => Returns (snd entry)) (Sampler.imwrite_log (Sampler.final r))
  /\ Z.of_nat (size (Sampler.frames (Sampler.final r)))
     = Sampler.saved_count (Sampler.final r).
Proof.
  intros (s & nums & _ & _ & _ & ->)%step2_inv.
  cbn [Sampler.saved_count Sampler.frames Sampler.imwrite_log].
  set (imgs := Sampler.decoded cap nums). split.
  - rewrite map_map. apply map_ext_in. intros [path image] Hin.
    apply list_elem_of_In, list_elem_of_lookup in Hin as [j Hj].
    apply (log_from_lookup imgs 0) in Hj as [-> Hj]. cbn [fst snd].
    apply image_open_written.
    now apply (write_from_lookup_all imgs ∅ 0 j image).
  - f_equal. rewrite <- size_dom, (write_from_dom imgs ∅ 0), dom_empty_L.
    rewrite (left_id_L ∅ (∪)), size_list_to_set by apply names_NoDup.
    now rewrite length_map, length_seq.
Qed.

Lemma every_saved_frame_is_kept_witness :
  let r := Sampler.Result 150
             (Sampler.LoopState 3 Fake.frames3
                (Sampler.log_from 0 [[0%N]; [1%N]; [2%N]])) in
  map (Captioner.image_open (Sampler.frames (Sampler.final r)))
      (map fst (Sampler.imwrite_log (Sampler.final r)))
    = map (fun entry => Returns (snd entry)) (Sampler.imwrite_log (Sampler.final r))
  /\ Z.of_nat (size (Sampler.frames (Sampler.final r)))
     = Sampler.saved_count (Sampler.final r).
Proof.
  intros r.
  apply (every_saved_frame_is_kept Fake.listing_order ∅ (Fake.capture 150) r).
  vm_compute; reflexivity.
Defined.

(** X7: a source with at least one frame whose frame 0 decodes always
    gives a first sample, however short it is: frame 0 is saved at index
    0. *)
Theorem first_frame_is_sampled (order : dir_order) (stale : gmap str Image)
    (cap : Sampler.VideoCapture) (r : Sampler.result) (image : Image) :
  float_valid (Sampler.CAP_PROP_FPS cap) = true ->
  Sampler.step2 order stale cap = Returns r ->
  1 <= Sampler.total_frames r ->
  Sampler.read_at cap 0 = Some image ->
  Sampler.imwrite_log (Sampler.final r) !! 0%nat
    = Some (in_output_folder (Sampler.name_of 0), image)
  /\ Sampler.frames (Sampler.final r) !! Sampler.name_of 0 = Some image
  /\ 1 <= Sampler.saved_count (Sampler.final r).
Proof.
  intros Hv H Ht H0.
  destruct (step2_inv_valid _ _ _ _ Hv H) as (s & nums & Hs & Hpos & _ & Hn & ->).
  cbn [Sampler.imwrite_log Sampler.frames Sampler.saved_count].
  destruct (Z.abs_nat (Sampler.total_frames r)) as [|fuel] eqn:Hfuel; [lia|].
  cbn [range_from] in Hn. destruct (Z.ltb_spec 0 (Sampler.total_frames r)); [|lia].
  subst nums. cbn [Sampler.decoded]. rewrite H0.
  cbn [Sampler.log_from Sampler.write_from length]. split; [reflexivity|].
  split; [|lia].
  change (0 + 1) with (Z.of_nat 1).
  rewrite write_from_other; [apply lookup_insert_eq|].
  intros (i & E & Hi)%list_elem_of_fmap. apply elem_of_seq in Hi.
  apply (name_of_inj_all 0 i) in E. lia.
Qed.

Lemma first_frame_is_sampled_witness :
  let r := Sampler.Result 45
             (Sampler.LoopState 1 (Sampler.write_from ∅ 0 [[0%N]])
                (Sampler.log_from 0 [[0%N]])) in
  Sampler.imwrite_log (Sampler.final r) !! 0%nat
    = Some (in_output_folder (Sampler.name_of 0), [0%N])
  /\ Sampler.frames (Sampler.final r) !! Sampler.name_of 0 = Some [0%N]
  /\ 1 <= Sampler.saved_count (Sampler.final r).
Proof.
  intros r.
  apply (first_frame_is_sampled Fake.listing_order ∅ (Fake.capture 45) r [0%N]);
    vm_compute; first [reflexivity | discriminate].
Defined.

Section OrderLimit.

Import Sampler.

#[local] Existing Instance str_le_trans.
#[local] Existing Instance str_le_total.

Lemma sorted_is_sorted l : Sorted str_le (sorted l).
Proof. apply Sorted_merge_sort, _. Qed.

Lemma StronglySorted_lookup_le l : forall i j (x y : str),
  StronglySorted str_le l -> (i < j)%nat ->
  l !! i = Some x -> l !! j = Some y -> str_le x y.
Proof.
  induction l as [|a l IH]; intros i j x y Hs Hij Hi Hj; [discriminate|].
  apply StronglySorted_inv in Hs as [Hs Ha].
  destruct j as [|j]; [lia|]. cbn in Hj. destruct i as [|i]; cbn in Hi.
  - injection Hi as <-. rewrite Forall_forall in Ha.
    eapply Ha, list_elem_of_lookup_2, Hj.
  - apply (IH i j); auto. lia.
Qed.

(** The path of index 10000 is below the path of index 1001. *)
Lemma five_digits_below :
  str_leb (in_output_folder (name_of 1001))
          (in_output_folder (name_of (Z.to_nat 10000))) = false.
Proof. vm_compute. reflexivity. Qed.

Lemma long_runs_not_sorted n :
  (Z.to_nat 10000 < n)%nat ->
  ~ Sorted str_le (map in_output_folder (map name_of (seq 0 n))).
Proof.
  intros Hn Hs. apply Sorted_StronglySorted in Hs; [|apply _].
  pose proof five_digits_below as Hb.
  assert (Hlt : (1001 < Z.to_nat 10000)%nat) by lia.
  pose proof (StronglySorted_lookup_le _ 1001 (Z.to_nat 10000)
                (in_output_folder (name_of 1001))
                (in_output_folder (name_of (Z.to_nat 10000))) Hs Hlt) as H.
  unfold str_le in H. rewrite Hb in H. discriminate H.
  - change (map in_output_folder (map name_of (seq 0 n)))
      with (in_output_folder <$> (name_of <$> seq 0 n)).
    rewrite !list_lookup_fmap, lookup_seq_lt by lia. reflexivity.
  - change (map in_output_folder (map name_of (seq 0 n)))
      with (in_output_folder <$> (name_of <$> seq 0 n)).
    rewrite !list_lookup_fmap, lookup_seq_lt by lia. reflexivity.
Qed.

End OrderLimit.

(** X8: the list of frame files of Step 5 is in the order the frames were
    saved exactly when at most 10000 frames were saved: from the frame of
    index 10000 on, the names have five digits and sort among the
    four-digit ones, so the descriptions no longer follow the sampling
    order. *)
Theorem analysis_order_limit (w : World) (order : dir_order)
    (stale : gmap str Image) (cap : Sampler.VideoCapture) (r : Sampler.result) :
  Sampler.step2 order stale cap = Returns r ->
  Driver.frame_files w (Sampler.frames (Sampler.final r))
    = map fst (Sampler.imwrite_log (Sampler.final r))
  <-> Sampler.saved_count (Sampler.final r) <= 10000.
Proof.
  intros (s & nums & _ & _ & _ & ->)%step2_inv.
  cbn [Sampler.saved_count Sampler.frames Sampler.imwrite_log].
  set (imgs := Sampler.decoded cap nums).
  pose proof (log_from_paths imgs 0) as Hp. change (Z.of_nat 0) with 0 in Hp.
  rewrite Hp. split.
  - intros E. destruct (Z.le_gt_cases (Z.of_nat (length imgs)) 10000) as [|Hgt];
      [assumption|exfalso].
    apply (long_runs_not_sorted (length imgs)); [lia|].
    rewrite <- E. apply sorted_is_sorted.
  - intros Hn. unfold Driver.frame_files.
    apply sorted_increasing; [apply paths_sorted|apply glob_written]; lia.
Qed.

Lemma analysis_order_limit_witness :
  let r := Sampler.Result 150
             (Sampler.LoopState 3 Fake.frames3
                (Sampler.log_from 0 [[0%N]; [1%N]; [2%N]])) in
  Driver.frame_files (Fake.world 150 []) (Sampler.frames (Sampler.final r))
    = map fst (Sampler.imwrite_log (Sampler.final r))
  <-> Sampler.saved_count (Sampler.final r) <= 10000.
Proof.
  intros r.
  apply (analysis_order_limit (Fake.world 150 []) Fake.listing_order ∅
           (Fake.capture 150) r).
  vm_compute; reflexivity.
Defined.

(* ===================================================================== *)
(** * Step 2: when the step exists, when it is zero *)
(* ===================================================================== *)

Section StepMore.

Import Sampler.

(** A valid positive number that is not below [2^52 * 2^k] has an exponent
    of at least [k]. *)
Lemma ltb_pow2_false_inv m e k :
  float_ltb (S754_finite false m e) (S754_finite false 4503599627370496 k) = false ->
  k <= e.
Proof.
  unfold float_ltb, SFltb, SFcompare.
  destruct (Z.compare_spec e k) as [->|Hlt|Hgt]; [lia|discriminate|lia].
Qed.

Lemma frame_interval_overflow m e :
  bounded prec emax m e = true -> 971 <= e ->
  frame_interval (S754_finite false m e)
  = Raises (OverflowError "cannot convert float infinity to integer").
Proof.
  intros Hb He. unfold frame_interval, fps_or_fallback.
  cbn [num_le_zero float_leb SFleb SFcompare num_mul_int int_of].
  rewrite float_double by exact Hb.
  destruct (bounded_inv _ _ Hb) as [_ [[Hd _]|[_ Hd]]]; [|lia].
  rewrite Hd. change (53 <? 53) with false. cbv iota.
  destruct (Z.leb_spec (e + 1) 971); [lia|reflexivity].
Qed.

Lemma frame_interval_ge_1 m e s :
  bounded prec emax m e = true -> -53 <= e ->
  frame_interval (S754_finite false m e) = Returns s -> 1 <= s.
Proof.
  intros Hb He. unfold frame_interval, fps_or_fallback.
  cbn [num_le_zero float_leb SFleb SFcompare num_mul_int int_of].
  rewrite float_double by exact Hb.
  destruct (bounded_inv _ _ Hb) as [_ [[Hd _]|[_ Hd]]]; [|lia].
  rewrite Hd. change (53 <? 53) with false. cbv iota.
  destruct (Z.leb_spec (e + 1) 971); [|discriminate].
  cbn [float_trunc]. intros [= <-].
  pose proof (mantissa_ge m) as Hm. rewrite Hd in Hm.
  change (2 ^ (53 - 1)) with 4503599627370496 in Hm.
  destruct (Z.leb_spec 0 (e + 1)) as [H0|H0].
  - assert (0 < 2 ^ (e + 1)) by (apply Z.pow_pos_nonneg; lia). nia.
  - apply Z.div_le_lower_bound; [apply Z.pow_pos_nonneg; lia|].
    rewrite Z.mul_1_r. etransitivity; [|exact Hm].
    change 4503599627370496 with (2 ^ 52). apply Z.pow_le_mono_r; lia.
Qed.

End StepMore.

(** X9: the step exists exactly for the decoded rates below [2^1023]:
    for a rate that is not a number, an infinite one or a larger one,
    [int(fps * 2)] raises and Step 2 fails before the loop. *)
Theorem frame_interval_defined_iff (fps : float) :
  float_valid fps = true ->
  (exists s, Sampler.frame_interval fps = Returns s)
  <-> float_ltb fps (float_of_scaled 1 1023) = true.
Proof.
  intros Hv. split.
  - intros [s Hs]. destruct (float_ltb fps (float_of_scaled 1 1023)) eqn:Hlt;
      [reflexivity|exfalso].
    destruct fps as [[]|[]| |[] m e]; try discriminate.
    cbn [float_valid valid_binary] in Hv.
    apply ltb_pow2_false_inv in Hlt.
    rewrite frame_interval_overflow in Hs by assumption. discriminate.
  - intros Hlt. destruct (float_leb fps (float_of_int 0)) eqn:Hle.
    + exists 60. now apply frame_interval_fallback.
    + destruct (leb_zero_false_inv fps Hle Hlt) as (m & e & ->).
      cbn [float_valid valid_binary] in Hv.
      destruct (frame_interval_floor m e Hv) as (q & _ & Hq); [|eauto].
      exact (ltb_pow2_inv m e 971 Hv ltac:(lia) Hlt).
Qed.

Lemma frame_interval_defined_iff_witness :
  (exists s, Sampler.frame_interval (float_of_scaled 1 1023) = Returns s)
  <-> float_ltb (float_of_scaled 1 1023) (float_of_scaled 1 1023) = true.
Proof. apply (frame_interval_defined_iff (float_of_scaled 1 1023)). reflexivity. Defined.

(** X10: the step is zero exactly for the decoded rates strictly between
    0 and 0.5: for every other rate that has a step, the step is at least
    1 and [range] accepts it. *)
Theorem frame_interval_zero_iff (fps : float) (s : Z) :
  float_valid fps = true ->
  Sampler.frame_interval fps = Returns s ->
  (s = 0 <-> float_ltb (float_of_int 0) fps = true
             /\ float_ltb fps (float_of_scaled 1 (-1)) = true)
  /\ 0 <= s.
Proof.
  intros Hv Hs. split; [|now apply (frame_interval_nonneg fps)]. split.
  - intros ->. destruct (float_leb fps (float_of_int 0)) eqn:Hle.
    + rewrite frame_interval_fallback in Hs by exact Hle. discriminate.
    + destruct fps as [[]|[]| |[] m e]; try discriminate.
      split; [reflexivity|].
      destruct (float_ltb (S754_finite false m e) (float_of_scaled 1 (-1))) eqn:Hlt;
        [reflexivity|exfalso].
      cbn [float_valid valid_binary] in Hv.
      apply ltb_pow2_false_inv in Hlt.
      pose proof (frame_interval_ge_1 m e 0 Hv Hlt Hs). lia.
  - intros [Hpos Hhalf].
    rewrite (frame_interval_zero fps Hv Hpos Hhalf) in Hs. now injection Hs.
Qed.

Lemma frame_interval_zero_iff_witness :
  (59 = 0 <-> float_ltb (float_of_int 0) (float_of_scaled 8435805052018360 (-48)) = true
              /\ float_ltb (float_of_scaled 8435805052018360 (-48))
                   (float_of_scaled 1 (-1)) = true)
  /\ 0 <= 59.
Proof.
  apply (frame_interval_zero_iff (float_of_scaled 8435805052018360 (-48)) 59);
    reflexivity.
Defined.

Section SampleTime.

Import Sampler.



End SampleTime.



(** With a frame that does not decode the tags fall behind: at 30 fps
    with frame 60 missing, the frame saved at index 1 is source frame 120
    (4 seconds into the clip), and its tag is [00:02]. *)
Example tag_lags_after_decode_miss :
  let cap := {| Sampler.isOpened := true;
                Sampler.CAP_PROP_FPS := float_of_int 30;
                Sampler.CAP_PROP_FRAME_COUNT := float_of_int 150;
                Sampler.read_at :=
                  fun n => if n =? 60 then None else Some [Z.to_N n] |} in
  exists r, Sampler.step2 Fake.listing_order ∅ cap = Returns r
    /\ Sampler.imwrite_log (Sampler.final r) !! 1%nat
       = Some (lit "frames/frame_0001.jpg", [120%N])
    /\ Report.mmss 1 = lit "00:02".
Proof.
  eexists. split; [vm_compute; reflexivity|]. split; reflexivity.
Qed.

(* ===================================================================== *)
(** * Steps 3 to 6: the order of the calls and the fatal failures *)
(* ===================================================================== *)

Section Calls.

Lemma calls_filter (d : gmap str Image) files :
  concat (map (Captioner.calls d) files)
  = map EvCaption (filter (fun p => View.opens d p = true) files).
Proof.
  induction files as [|p files IH]; [reflexivity|].
  cbn [map concat]. rewrite IH, filter_cons.
  unfold Captioner.calls, View.opens.
  destruct (Captioner.image_open d p); [rewrite decide_True|rewrite decide_False];
    (reflexivity || discriminate || auto).
Qed.

Lemma captions_no_report (l : list str) :
  existsb writes_report (map EvCaption l) = false.
Proof. induction l; cbn; auto. Qed.

Lemma step3_returns_trace (w : World) t v :
  fst (Audio.step3 w t) = Returns v -> snd (Audio.step3 w t) = t ++ View.step3_calls.
Proof.
  unfold Audio.step3, Audio.extract_audio, try_except, bindM, lift, emit, raise, ret.
  destruct (open_clip w) as [video|]; [|discriminate].
  destruct (audio video) as [samples|]; [|discriminate].
  destruct (write_audiofile w samples); [|discriminate].
  destruct (whisper_load_model w); [|discriminate].
  destruct (whisper_transcribe w); [|discriminate].
  intros _. cbn [snd]. now rewrite <- !app_assoc.
Qed.

End Calls.

(** X12: Step 3 makes its calls in one order, each at most once: the
    audio file is written before the transcriber is loaded, and the
    transcriber is loaded before it is run; when the cell returns, all
    three calls were made. *)
Theorem step3_calls_in_order (w : World) (t : list event) :
  exists k : nat,
    snd (Audio.step3 w t) = t ++ take k View.step3_calls
    /\ forall v, fst (Audio.step3 w t) = Returns v -> k = 3%nat.
Proof.
  unfold Audio.step3, Audio.extract_audio, try_except, bindM, lift, emit, raise, ret.
  destruct (open_clip w) as [video|].
  2:{ exists 0%nat. cbn. split; [now rewrite app_nil_r|discriminate]. }
  destruct (audio video) as [samples|].
  2:{ exists 0%nat. cbn. split; [now rewrite app_nil_r|discriminate]. }
  destruct (write_audiofile w samples).
  2:{ exists 1%nat. cbn. split; [reflexivity|discriminate]. }
  destruct (whisper_load_model w).
  2:{ exists 2%nat. cbn. split; [now rewrite <- app_assoc|discriminate]. }
  exists 3%nat. split; [|reflexivity].
  destruct (whisper_transcribe w); cbn; now rewrite <- !app_assoc.
Qed.

(** X13: every failure of the audio extraction, not only a missing audio
    stream, is raised again as it is: Step 3 ends with the exception of
    the [try] block, and the transcriber is neither loaded nor run. *)
Theorem audio_failure_is_reraised (w : World) (e : exn) (t : list event) :
  fst (Audio.extract_audio w t) = Raises e ->
  Audio.step3 w t = (Raises e, snd (Audio.extract_audio w t))
  /\ existsb calls_transcriber (snd (Audio.step3 w t))
     = existsb calls_transcriber t.
Proof.
  unfold Audio.step3, try_except, bindM, raise.
  destruct (Audio.extract_audio w t) as [[video|e'] t'] eqn:E; cbn [fst snd];
    [discriminate|].
  intros [= ->]. split; [reflexivity|]. cbn [snd].
  revert E. unfold Audio.extract_audio, bindM, lift, emit, raise, ret.
  destruct (open_clip w) as [video|]; [|now intros [= _ <-]].
  destruct (audio video) as [samples|]; [|now intros [= _ <-]].
  destruct (write_audiofile w samples); [discriminate|].
  intros [= _ <-]. rewrite existsb_app. cbn. now rewrite orb_false_r.
Qed.

Lemma audio_failure_is_reraised_witness :
  let w := Fake.silent (Fake.world 150 []) in
  Audio.step3 w [] = (Raises Audio.NoAudioTrack, snd (Audio.extract_audio w []))
  /\ existsb calls_transcriber (snd (Audio.step3 w []))
     = existsb calls_transcriber [].
Proof.
  intros w. apply (audio_failure_is_reraised w Audio.NoAudioTrack []). reflexivity.
Defined.

(** X15: no partial report.  The run of all cells either returns the
    report, which is then written once, as the last call, or it raises and
    no report is written at all. *)
Theorem report_written_iff_run_returns (w : World) :
  match fst (Notebook.run w) with
  | Returns report =>
      exists t, snd (Notebook.run w) = t ++ [EvWriteReport report]
                /\ existsb writes_report t = false
  | Raises _ => existsb writes_report (snd (Notebook.run w)) = false
  end.
Proof.
  pose proof (step3_trace w [] eq_refl) as H3.
  unfold Notebook.run, Notebook.run_all, bindM, lift.
  destruct (Sampler.step2 _ _ _) as [r|]; [|reflexivity].
  destruct (Audio.step3 w []) as [[[video transcript]|e3] t3]; cbn [snd] in H3;
    [|exact H3].
  unfold Captioner.step4, bindM, emit, lift.
  destruct (phi_from_pretrained w) as [[]|e4];
    [|cbn; now rewrite existsb_app, H3].
  unfold Driver.step5. rewrite analyze_frames_run.
  destruct (Driver.frame_files w _) as [|p files];
    [cbn; now rewrite existsb_app, H3|].
  unfold Report.step6, bindM, emit, ret. cbn [fst snd].
  eexists. split; [reflexivity|].
  rewrite calls_filter, !existsb_app, H3, captions_no_report. reflexivity.
Qed.

(** X16: a failure of Step 3 (audio, transcriber) or of the model loading
    of Step 4 ends the run with that failure: no frame is captioned and no
    report is written. *)
Theorem early_failure_stops_run (w : World) (r : Sampler.result) (e : exn) :
  Sampler.step2 (os_order w) (stale_frames w) (vidcap w) = Returns r ->
  fst (Audio.step3 w []) = Raises e
  \/ (exists v, fst (Audio.step3 w []) = Returns v)
     /\ phi_from_pretrained w = Raises e ->
  fst (Notebook.run w) = Raises e
  /\ existsb (fun ev => match ev with EvCaption _ => true | _ => false end)
       (snd (Notebook.run w)) = false
  /\ existsb writes_report (snd (Notebook.run w)) = false.
Proof.
  intros H2 H.
  unfold Notebook.run, Notebook.run_all, bindM, lift. rewrite H2.
  destruct H as [H3|[[v H3] H4]].
  - pose proof (step3_calls_in_order w []) as (k & Ht & _).
    destruct (Audio.step3 w []) as [[v|e3] t3]; cbn [fst snd] in *; [discriminate|].
    injection H3 as ->. subst t3. split; [reflexivity|].
    destruct k as [|[|[|k]]]; cbn; rewrite ?take_nil; cbn; auto.
  - pose proof (step3_returns_trace w [] v H3) as Ht.
    destruct (Audio.step3 w []) as [[[video transcript]|e3] t3]; cbn [fst snd] in *;
      [|discriminate].
    subst t3. unfold Captioner.step4, bindM, emit, lift. rewrite H4.
    cbn. auto.
Qed.

Lemma early_failure_stops_run_witness :
  let w := Fake.silent (Fake.world 150 []) in
  fst (Notebook.run w) = Raises Audio.NoAudioTrack
  /\ existsb (fun ev => match ev with EvCaption _ => true | _ => false end)
       (snd (Notebook.run w)) = false
  /\ existsb writes_report (snd (Notebook.run w)) = false.
Proof.
  intros w.
  apply (early_failure_stops_run w
           (Sampler.Result 150
              (Sampler.LoopState 3 Fake.frames3
                 (Sampler.log_from 0 [[0%N]; [1%N]; [2%N]])))
           Audio.NoAudioTrack);
    [vm_compute; reflexivity | left; reflexivity].
Defined.

(** X17: how the cells compose.  When Step 2 returns, Step 3 returns the
    clip and the transcript, the model loads and there is at least one
    frame file, the run returns the report made from the captions of the
    frame files in their order and from the transcript; its calls are
    those of Step 3, the model loading, one captioner call per frame file
    that opens, and the writing of the report, in this order. *)
Theorem run_composes (w : World) (r : Sampler.result)
    (video : VideoFileClip) (transcript : str) :
  Sampler.step2 (os_order w) (stale_frames w) (vidcap w) = Returns r ->
  fst (Audio.step3 w []) = Returns (video, transcript) ->
  phi_from_pretrained w = Returns tt ->
  Driver.frame_files w (Sampler.frames (Sampler.final r)) <> [] ->
  let d := Sampler.frames (Sampler.final r) in
  let files := Driver.frame_files w d in
  let report :=
    Report.report_text w video (map (Captioner.caption w d) files) transcript in
  Notebook.run w
  = (Returns report,
     View.step3_calls ++ [EvPhiLoad]
       ++ map EvCaption (filter (fun p => View.opens d p = true) files)
       ++ [EvWriteReport report]).
Proof.
  intros H2 H3 H4 Hne. cbv zeta.
  pose proof (step3_returns_trace w [] _ H3) as Ht.
  unfold Notebook.run, Notebook.run_all, bindM, lift. rewrite H2.
  destruct (Audio.step3 w []) as [o3 t3]. cbn [fst snd] in *. subst o3 t3.
  unfold Captioner.step4, bindM, emit, lift. rewrite H4.
  unfold Driver.step5. rewrite analyze_frames_run.
  destruct (Driver.frame_files w (Sampler.frames (Sampler.final r)))
    as [|p rest]; [contradiction|].
  unfold Report.step6, bindM, emit, ret. rewrite calls_filter.
  cbn [app]. f_equal.
Qed.

Lemma run_composes_witness :
  let w := Fake.world 150 [] in
  let d := Fake.frames3 in
  let files := Driver.frame_files w d in
  let report :=
    Report.report_text w {| audio := Some [0; 1; 0]; duration := float_of_int 5 |}
      (map (Captioner.caption w d) files) (lit "hello world") in
  Notebook.run w
  = (Returns report,
     View.step3_calls ++ [EvPhiLoad]
       ++ map EvCaption (filter (fun p => View.opens d p = true) files)
       ++ [EvWriteReport report]).
Proof.
  intros w.
  apply (run_composes w
           (Sampler.Result 150
              (Sampler.LoopState 3 Fake.frames3
                 (Sampler.log_from 0 [[0%N]; [1%N]; [2%N]])))
           {| audio := Some [0; 1; 0]; duration := float_of_int 5 |}
           (lit "hello world"));
    [vm_compute; reflexivity | vm_compute; reflexivity | reflexivity
    | vm_compute; discriminate].
Defined.

(* ===================================================================== *)
(** * Step 4: the text of a caption *)
(* ===================================================================== *)

Section CaptionText.

Import View.

Lemma lstrip_split s :
  exists ws, s = ws ++ lstrip s /\ forallb isspace ws = true.
Proof.
  induction s as [|c s (ws & E & Hws)]; [now exists []|].
  cbn [lstrip]. destruct (isspace c) eqn:Hc.
  - exists (c :: ws). cbn. rewrite Hc, Hws. split; [now f_equal|reflexivity].
  - now exists [].
Qed.

Lemma lstrip_head s :
  match lstrip s with c :: _ => isspace c = false | [] => True end.
Proof.
  induction s as [|c s IH]; [exact I|]. cbn [lstrip].
  destruct (isspace c) eqn:Hc; [exact IH|exact Hc].
Qed.

Lemma strip_ends s :
  match strip s with c :: _ => isspace c = false | [] => True end
  /\ match rev (strip s) with c :: _ => isspace c = false | [] => True end.
Proof.
  unfold strip. split; [|rewrite rev_involutive; apply lstrip_head].
  destruct (lstrip_split (rev (lstrip s))) as (ws & E & _).
  apply (f_equal (@rev N)) in E. rewrite rev_involutive, rev_app_distr in E.
  pose proof (lstrip_head s) as Hh. rewrite E in Hh.
  now destruct (rev (lstrip (rev (lstrip s)))).
Qed.

Lemma strip_prefix_inv p : forall s r, strip_prefix p s = Some r -> s = p ++ r.
Proof.
  induction p as [|a p IH]; intros s r; cbn [strip_prefix].
  - destruct s; now intros [= <-].
  - destruct s as [|b s]; [discriminate|].
    destruct (N.eqb_spec a b) as [->|]; [|discriminate].
    intros H. cbn. f_equal. now apply IH.
Qed.

Lemma split_go_nonempty sep s : forall k cur, split_go sep s k cur <> [].
Proof.
  induction s as [|c s IH]; intros k cur; cbn [split_go]; [discriminate|].
  destruct k; [|apply IH]. destruct (startswith sep (c :: s)); [discriminate|apply IH].
Qed.

Lemma last_cons_nonempty (x : str) l : l <> [] -> List.last (x :: l) [] = List.last l [].
Proof. now destruct l. Qed.

Lemma split_go_absent sep s : forall cur,
  View.occurs sep s = false -> split_go sep s 0 cur = [rev cur ++ s].
Proof.
  induction s as [|c s IH]; intros cur; cbn [View.occurs split_go].
  - now rewrite app_nil_r.
  - intros [H1 H2]%orb_false_iff. rewrite H1, IH by exact H2.
    cbn [rev]. now rewrite <- app_assoc.
Qed.

Lemma split_go_skip sep s : forall k cur,
  (k <= length s)%nat -> split_go sep s k cur = split_go sep (drop k s) 0 cur.
Proof.
  induction s as [|c s IH]; intros k cur Hk.
  - destruct k; [reflexivity|cbn in Hk; lia].
  - destruct k as [|k]; [reflexivity|]. cbn [split_go drop].
    apply IH. cbn in Hk. lia.
Qed.

(** Only the first character of the marker is ['<']. *)
Lemma marker_first j : marker !! j = Some 60%N -> j = 0%nat.
Proof.
  do 13 (destruct j as [|j]; [first [reflexivity | discriminate]|]).
  discriminate.
Qed.

(** An occurrence of the marker that starts before another one ends
    before it. *)
Lemma marker_no_overlap c pre rest :
  startswith marker (c :: pre ++ marker ++ rest) = true ->
  (12 <= length pre)%nat.
Proof.
  unfold startswith.
  destruct (strip_prefix marker (c :: pre ++ marker ++ rest)) as [r|] eqn:E;
    [|discriminate].
  intros _. apply strip_prefix_inv in E.
  destruct (Nat.le_gt_cases 12 (length pre)) as [|Hlt]; [assumption|exfalso].
  assert (H : (c :: pre ++ marker ++ rest) !! S (length pre) = Some 60%N).
  { change ((c :: pre ++ marker ++ rest) !! S (length pre))
      with ((pre ++ marker ++ rest) !! length pre).
    rewrite lookup_app_r, Nat.sub_diag by lia. reflexivity. }
  rewrite E, lookup_app_l in H by (cbn; lia).
  apply marker_first in H. discriminate.
Qed.

Lemma split_marker_last answer :
  View.occurs marker answer = false ->
  forall pre k cur, (k <= length pre)%nat ->
    List.last (split_go marker (pre ++ marker ++ answer) k cur) [] = answer.
Proof.
  intros Ha. induction pre as [|c pre IH]; intros k cur Hk.
  - destruct k; [|cbn in Hk; lia]. cbn [app].
    change (marker ++ answer)
      with (60%N :: (lit "|assistant|>" ++ answer)).
    cbn [split_go].
    change (60%N :: (lit "|assistant|>" ++ answer)) with (marker ++ answer).
    unfold startswith. rewrite strip_prefix_app.
    rewrite last_cons_nonempty by apply split_go_nonempty.
    rewrite split_go_skip by (rewrite length_app; cbn; lia).
    change (length marker - 1)%nat with (length (lit "|assistant|>")).
    rewrite drop_app_length, split_go_absent by exact Ha. reflexivity.
  - cbn [app split_go]. destruct k as [|k].
    + destruct (startswith marker (c :: pre ++ marker ++ answer)) eqn:Hm.
      * apply marker_no_overlap in Hm.
        rewrite last_cons_nonempty by apply split_go_nonempty.
        apply IH. exact Hm.
      * apply IH. lia.
    + apply IH. cbn in Hk. lia.
Qed.

End CaptionText.

(** X18: a caption that comes from the model has no white space at
    either end. *)
Theorem caption_is_stripped (w : World) (d : gmap str Image)
    (image_path text : str) :
  Captioner.body_outcome w d image_path = Returns text ->
  Captioner.caption w d image_path = text
  /\ match text with c :: _ => isspace c = false | [] => True end
  /\ match rev text with c :: _ => isspace c = false | [] => True end.
Proof.
  intros H. split; [unfold Captioner.caption; now rewrite H|].
  unfold Captioner.body_outcome in H.
  destruct (Captioner.image_open d image_path) as [image|]; [|discriminate].
  cbn [bind] in H. destruct (phi_respond w image) as [response|]; [|discriminate].
  cbn [bind] in H. injection H as <-. apply strip_ends.
Qed.

Lemma caption_is_stripped_witness :
  Captioner.caption (Fake.world 150 []) Fake.frames3 (lit "frames/frame_0001.jpg")
    = lit "desc-1"
  /\ match lit "desc-1" with c :: _ => isspace c = false | [] => True end
  /\ match rev (lit "desc-1") with c :: _ => isspace c = false | [] => True end.
Proof.
  apply (caption_is_stripped (Fake.world 150 []) Fake.frames3
           (lit "frames/frame_0001.jpg") (lit "desc-1")).
  vm_compute. reflexivity.
Defined.

(** X19: when the decoded response holds the marker ["<|assistant|>"] and
    the marker does not occur again in what follows it, the caption is what
    follows the marker, stripped: the prompt before the marker is left
    out. *)
Theorem caption_is_text_after_marker (w : World) (d : gmap str Image)
    (image_path : str) (image : Image) (pre answer : str) :
  Captioner.image_open d image_path = Returns image ->
  phi_respond w image = Returns (pre ++ lit "<|assistant|>" ++ answer) ->
  View.occurs (lit "<|assistant|>") answer = false ->
  Captioner.caption w d image_path = strip answer.
Proof.
  intros Ho Hr Ha. unfold Captioner.caption, Captioner.body_outcome.
  rewrite Ho. cbn [bind]. rewrite Hr. cbn [bind]. f_equal.
  unfold split. apply (split_marker_last answer Ha pre 0 []). lia.
Qed.

Lemma caption_is_text_after_marker_witness :
  Captioner.caption (Fake.world 150 []) Fake.frames3 (lit "frames/frame_0001.jpg")
  = strip (lit " desc-1" ++ nl).
Proof.
  apply (caption_is_text_after_marker (Fake.world 150 []) Fake.frames3
           (lit "frames/frame_0001.jpg") [1%N] (lit "<|user|> Describe ")
           (lit " desc-1" ++ nl));
    vm_compute; reflexivity.
Defined.

(** X20: when the marker does not occur in the decoded response at all,
    nothing is cut off: the caption is the whole response, stripped. *)
Theorem caption_without_marker (w : World) (d : gmap str Image)
    (image_path : str) (image : Image) (response : str) :
  Captioner.image_open d image_path = Returns image ->
  phi_respond w image = Returns response ->
  View.occurs (lit "<|assistant|>") response = false ->
  Captioner.caption w d image_path = strip response.
Proof.
  intros Ho Hr Ha. unfold Captioner.caption, Captioner.body_outcome.
  rewrite Ho. cbn [bind]. rewrite Hr. cbn [bind]. f_equal.
  unfold split. now rewrite split_go_absent.
Qed.

Lemma caption_without_marker_witness :
  let w := {| video_path := [];
              os_order := Fake.listing_order;
              stale_frames := ∅;
              vidcap := Fake.capture 150;
              open_clip := Raises Audio.NoAudioTrack;
              write_audiofile := fun _ => Returns tt;
              whisper_load_model := Returns tt;
              whisper_transcribe := Returns [];
              phi_from_pretrained := Returns tt;
              phi_respond := fun _ => Returns (lit "Describe this image. A cat. ");
              strftime_now := [];
              format_1f := fun _ => [] |} in
  Captioner.caption w Fake.frames3 (lit "frames/frame_0001.jpg")
  = strip (lit "Describe this image. A cat. ").
Proof.
  intros w.
  apply (caption_without_marker w Fake.frames3 (lit "frames/frame_0001.jpg") [1%N]
           (lit "Describe this image. A cat. "));
    vm_compute; reflexivity.
Defined.

(* ===================================================================== *)
(** * What is analysed and what is reported *)
(* ===================================================================== *)

Section Coverage.

Import Sampler.

Lemma glob_written_all (order : dir_order) imgs :
  Driver.glob_jpg order (write_from ∅ 0 imgs)
  ≡ₚ map in_output_folder (map name_of (seq 0 (length imgs))).
Proof.
  unfold Driver.glob_jpg, listdir. apply Permutation_map.
  rewrite (order_perm order).
  rewrite (write_from_dom imgs ∅ 0), dom_empty_L, (left_id_L ∅ (∪)).
  rewrite (elements_list_to_set _ (names_NoDup 0 (length imgs))).
  rewrite filter_all; [reflexivity|].
  apply Forall_forall. intros x (i & -> & Hi)%list_elem_of_fmap.
  apply frame_name_matches.
Qed.

Lemma frame_files_length (w : World) (order : dir_order) stale cap r :
  step2 order stale cap = Returns r ->
  Z.of_nat (length (Driver.frame_files w (frames (final r))))
  = saved_count (final r).
Proof.
  intros (s & nums & _ & _ & _ & ->)%step2_inv. cbn [saved_count frames].
  unfold Driver.frame_files, sorted.
  rewrite merge_sort_Permutation, glob_written_all, !length_map, length_seq.
  reflexivity.
Qed.

End Coverage.

Section ListedFiles.

Import Sampler.


End ListedFiles.



(** X21: every saved frame is analysed exactly once, for any number of
    frames: the list of frame files of Step 5 is a permutation of the
    paths Step 2 wrote, so there are as many frame files as saved
    frames. *)
Theorem every_saved_frame_is_analysed (w : World) (order : dir_order)
    (stale : gmap str Image) (cap : Sampler.VideoCapture) (r : Sampler.result) :
  Sampler.step2 order stale cap = Returns r ->
  Driver.frame_files w (Sampler.frames (Sampler.final r))
    ≡ₚ map fst (Sampler.imwrite_log (Sampler.final r))
  /\ Z.of_nat (length (Driver.frame_files w (Sampler.frames (Sampler.final r))))
     = Sampler.saved_count (Sampler.final r).
Proof.
  intros (s & nums & _ & _ & _ & ->)%step2_inv.
  cbn [Sampler.saved_count Sampler.frames Sampler.imwrite_log].
  set (imgs := Sampler.decoded cap nums).
  assert (Hp : Driver.frame_files w (Sampler.write_from ∅ 0 imgs)
               ≡ₚ map fst (Sampler.log_from 0 imgs)).
  { pose proof (log_from_paths imgs 0) as Hl. change (Z.of_nat 0) with 0 in Hl.
    rewrite Hl. unfold Driver.frame_files, sorted.
    rewrite merge_sort_Permutation. apply glob_written_all. }
  split; [exact Hp|]. rewrite Hp, length_map, log_from_length. reflexivity.
Qed.

Lemma every_saved_frame_is_analysed_witness :
  let r := Sampler.Result 150
             (Sampler.LoopState 3 Fake.frames3
                (Sampler.log_from 0 [[0%N]; [1%N]; [2%N]])) in
  Driver.frame_files (Fake.world 150 []) (Sampler.frames (Sampler.final r))
    ≡ₚ map fst (Sampler.imwrite_log (Sampler.final r))
  /\ Z.of_nat (length (Driver.frame_files (Fake.world 150 [])
                         (Sampler.frames (Sampler.final r))))
     = Sampler.saved_count (Sampler.final r).
Proof.
  intros r.
  apply (every_saved_frame_is_analysed (Fake.world 150 []) Fake.listing_order ∅
           (Fake.capture 150) r).
  vm_compute; reflexivity.
Defined.

(** X22: a report is never made from zero frames: whenever the run of all
    cells returns a report, it is the report of a non-empty list of
    descriptions, one per saved frame, so the guard [if frame_descriptions]
    of Step 6 holds in every such run. *)
Theorem report_has_frames (w : World) (report : str) :
  fst (Notebook.run w) = Returns report ->
  exists r video frame_descriptions transcript,
    Sampler.step2 (os_order w) (stale_frames w) (vidcap w) = Returns r
    /\ frame_descriptions <> []
    /\ Z.of_nat (length frame_descriptions) = Sampler.saved_count (Sampler.final r)
    /\ report = Report.report_text w video frame_descriptions transcript.
Proof.
  unfold Notebook.run, Notebook.run_all, bindM, lift.
  destruct (Sampler.step2 _ _ _) as [r|] eqn:H2; [|discriminate].
  destruct (Audio.step3 w []) as [[[video transcript]|e3] t3]; [|discriminate].
  unfold Captioner.step4, bindM, emit, lift.
  destruct (phi_from_pretrained w) as [[]|e4]; [|discriminate].
  unfold Driver.step5. rewrite analyze_frames_run.
  pose proof (frame_files_length w _ _ _ _ H2) as Hlen.
  destruct (Driver.frame_files w _) as [|p files] eqn:E; [discriminate|].
  unfold Report.step6, bindM, emit, ret. cbn [fst]. intros [= <-].
  exists r, video, (map (Captioner.caption w (Sampler.frames (Sampler.final r)))
                      (p :: files)), transcript.
  repeat split; [discriminate|now rewrite length_map].
Qed.

Lemma report_has_frames_witness :
  exists r video frame_descriptions transcript,
    Sampler.step2 (os_order (Fake.world 45 [])) (stale_frames (Fake.world 45 []))
      (vidcap (Fake.world 45 [])) = Returns r
    /\ frame_descriptions <> []
    /\ Z.of_nat (length frame_descriptions) = Sampler.saved_count (Sampler.final r)
    /\ Report.report_text (Fake.world 45 [])
         {| audio := Some [0; 1; 0]; duration := float_of_int 5 |}
         [lit "desc-0"] (lit "hello world")
       = Report.report_text (Fake.world 45 []) video frame_descriptions transcript.
Proof.
  apply (report_has_frames (Fake.world 45 [])
           (Report.report_text (Fake.world 45 [])
              {| audio := Some [0; 1; 0]; duration := float_of_int 5 |}
              [lit "desc-0"] (lit "hello world"))).
  vm_compute. reflexivity.
Defined.
